(** * Database lifecycle controller (electron-utils/Database.ts)

    A shallow embedding of the [Database] class: the open / upgrade /
    restore flow, [close], the transactional primitives [executeSQL],
    [runSQL] and [execSet], [createSyncTable], [importJson] and
    [exportJson].

    The class is written with [async] functions, [try]/[catch] and
    driver callbacks.  The embedding keeps that shape:
    - a statement either completes normally, throws, or returns a
      promise ([Completion]); [try_catch] only intercepts throws, so a
      [return Promise.reject(...)] placed inside a [try] block leaves the
      function without running the handler, as it does in JavaScript;
    - an [async] function settles its promise from the completion of its
      body: falling off the end resolves with [undefined];
    - the helper objects ([UtilsSQLite], [UtilsFile], [UtilsUpgrade], ...)
      are injected as a record of functions over an abstract world;
    - driver callbacks are queued and run later, their returned promise
      being discarded by the driver.

    Numbers that the class treats as integers (versions, change counts,
    row ids, seconds) are in [Z]; a string is a sequence of [ascii]
    characters, one per code unit. Calls to [console.log] have no effect
    on any result and are left out. *)

From Stdlib Require Import ZArith String Ascii List Bool Lia.
From stdpp Require Import base gmap strings list pretty.
Import ListNotations.
Local Open Scope string_scope.
Local Open Scope list_scope.
Local Open Scope Z_scope.

(** ** JavaScript values used by the class *)

(** [new Error(msg)]: only the [message] property is ever read. *)
Record Error := mkError { message : string }.

(** A settled promise. *)
Inductive Promise (A : Type) : Type :=
| Resolve (a : A)
| Reject (e : Error).
Arguments Resolve {A} a.
Arguments Reject {A} e.

(** Bound values of a parameterised statement ([any[]]). *)
Inductive Value :=
| VNull
| VNum (z : Z)
| VStr (s : string).

(** One element of the [set] argument of [execSet]. *)
Record SetItem := mkSetItem { statement : string; values : list Value }.

(** Modelled from the spec: the type [capSQLiteVersionUpgrade] is declared
    in [definitions], which is not among the sources. Section 3: an
    upgrade step is keyed by its target version and holds an ordered
    sequence of SQL statements. *)
Record capSQLiteVersionUpgrade := mkUpgrade { upg_statements : list string }.

(** Modelled from the spec: the type [JsonSQLite] is declared in
    [definitions], which is not among the sources. Section 6 gives the
    shape of a table descriptor: name, schema, indexes, triggers, views
    and values. *)
Record JsonTable := mkJsonTable {
  jt_name : string;
  jt_schema : list (string * string);
  jt_indexes : list string;
  jt_triggers : list string;
  jt_views : list string;
  jt_values : list (list Value) }.

(** Modelled from the spec: section 6, the document is
    [{ database, version, encrypted, mode, tables }]. [tables] is absent
    on the header object that [exportJson] builds. *)
Record JsonSQLite := mkJsonSQLite {
  database : string;
  version : Z;
  encrypted : bool;
  mode : string;
  tables : option (list JsonTable) }.

(** The object resolved by [runSQL] and [execSet]. *)
Record RetRes := mkRetRes { changes : Z; lastId : Z }.

(** [String.prototype.slice(start, end)] *)
Definition slice_index (len i : Z) : Z :=
  if i <? 0 then Z.max (len + i) 0 else Z.min i len.

Definition slice (s : string) (start stop : Z) : string :=
  let len := Z.of_nat (String.length s) in
  let from := slice_index len start in
  let to := slice_index len stop in
  String.substring (Z.to_nat from) (Z.to_nat (Z.max (to - from) 0)) s.

(** [Math.round(ms / 1000)] for an integral number of milliseconds. *)
Definition round_seconds (ms : Z) : Z := (ms + 500) / 1000.

Definition dquote : string := String "034"%char EmptyString.
Definition newline : string := String "010"%char EmptyString.

Fixpoint spaces (n : nat) : string :=
  match n with
  | O => EmptyString
  | S k => String " "%char (spaces k)
  end.

(** ** The controller object and the events it causes *)

Section Controller.

Context {W Conn : Type}.

(** [_mDB] is [any]: [None] stands for [undefined]. *)
Definition Handle : Type := option Conn.

Record Database := mkDatabase {
  _isDBOpen : bool;
  _dbName : string;
  _encrypted : bool;
  _mode : string;
  _version : Z;
  _pathDB : string;
  _mDB : Handle;
  _vUpgDict : gmap Z capSQLiteVersionUpgrade }.

Definition with_isDBOpen (b : bool) (d : Database) : Database :=
  mkDatabase b (_dbName d) (_encrypted d) (_mode d) (_version d)
             (_pathDB d) (_mDB d) (_vUpgDict d).

Definition with_mDB (h : Handle) (d : Database) : Database :=
  mkDatabase (_isDBOpen d) (_dbName d) (_encrypted d) (_mode d) (_version d)
             (_pathDB d) h (_vUpgDict d).

(** The injected helpers. Each takes the world and gives the world after
    the call together with the settled promise. *)
Record Collaborators := mkCollaborators {
  (* GlobalSQLite *)
  secret : string;
  newsecret : string;
  (* UtilsFile *)
  getFilePath : string -> string;
  deleteFileName : string -> W -> W * Promise unit;
  restoreFileName : string -> string -> W -> W * Promise unit;
  (* UtilsEncryption *)
  encryptDatabase : string -> string -> W -> W * Promise unit;
  (* UtilsSQLite *)
  changePassword : string -> string -> string -> W -> W * Promise unit;
  openOrCreateDatabase : string -> string -> W -> W * Promise Conn;
  getVersion : Handle -> W -> W * Promise Z;
  beginTransaction : Handle -> bool -> W -> W * Promise unit;
  commitTransaction : Handle -> bool -> W -> W * Promise unit;
  rollbackTransaction : Handle -> bool -> W -> W * Promise unit;
  execute : Handle -> string -> W -> W * Promise Z;
  executeSet : Handle -> list SetItem -> W -> W * Promise Z;
  dbChanges : Handle -> W -> W * Promise Z;
  getLastId : Handle -> W -> W * Promise Z;
  (* UtilsUpgrade *)
  onUpgrade : Handle -> gmap Z capSQLiteVersionUpgrade -> string -> Z -> Z ->
              W -> W * Promise Z;
  (* UtilsJson *)
  isTableExists : Handle -> bool -> string -> W -> W * Promise bool;
  isJsonSQLite : JsonSQLite -> bool;
  (* ImportFromJson / ExportToJson *)
  createDatabaseSchema : Handle -> JsonSQLite -> W -> W * Promise Z;
  createTablesData : Handle -> JsonSQLite -> W -> W * Promise Z;
  createExportObject : Handle -> JsonSQLite -> W -> W * Promise JsonSQLite;
  (* the driver object behind [_mDB]: the error handed to the callback *)
  driver_close : Conn -> W -> W * option Error;
  driver_run : Conn -> string -> list Value -> W -> W * option Error;
  (* [new Date().getTime()] *)
  now_ms : W -> Z }.

(** What the controller did, in order, with the outcome of each call. *)
Inductive Event :=
| EvChangePassword (path old new : string) (r : Promise unit)
| EvEncryptDatabase (path password : string) (r : Promise unit)
| EvOpenOrCreateDatabase (path password : string) (r : Promise Conn)
| EvGetVersion (h : Handle) (r : Promise Z)
| EvOnUpgrade (dbName : string) (cur target : Z) (r : Promise Z)
| EvDeleteFileName (name : string) (r : Promise unit)
| EvRestoreFileName (name prefix : string) (r : Promise unit)
| EvBeginTransaction (isOpen : bool) (r : Promise unit)
| EvCommitTransaction (isOpen : bool) (r : Promise unit)
| EvRollbackTransaction (isOpen : bool) (r : Promise unit)
| EvExecute (sql : string) (r : Promise Z)
| EvExecuteSet (set : list SetItem) (r : Promise Z)
| EvDbChanges (r : Promise Z)
| EvGetLastId (r : Promise Z)
| EvIsTableExists (isOpen : bool) (name : string) (r : Promise bool)
| EvCreateDatabaseSchema (json : JsonSQLite) (r : Promise Z)
| EvCreateTablesData (json : JsonSQLite) (r : Promise Z)
| EvCreateExportObject (inJson : JsonSQLite) (r : Promise JsonSQLite)
| EvDriverClose (err : option Error)
| EvDriverRun (stmt : string) (vals : list Value) (err : option Error)
| EvClose.  (* the method [close()] was entered *)

(** Callbacks handed to the driver, waiting to be called. *)
Inductive Callback :=
| CbClose (err : option Error)
| CbRun (err : option Error) (initChanges : Z).

Record Sys := mkSys {
  this : Database;
  world : W;
  pending : list Callback }.

Record Run (X : Type) := mkRun {
  after : Sys;
  events : list Event;
  result : X }.
Arguments mkRun {X} _ _ _.
Arguments after {X} _.
Arguments events {X} _.
Arguments result {X} _.

(** ** Completions *)

Inductive Completion (R A : Type) : Type :=
| Normal (a : A)
| Throw (e : Error)
| Return (p : Promise R).
Arguments Normal {R A} a.
Arguments Throw {R A} e.
Arguments Return {R A} p.

Definition Method (R A : Type) : Type := Sys -> Run (Completion R A).
Definition AsyncFn (R : Type) : Type := Sys -> Run (Promise R).

Definition ret {R A} (a : A) : Method R A :=
  fun s => mkRun s [] (Normal a).

Definition bind {R A B} (m : Method R A) (k : A -> Method R B) : Method R B :=
  fun s =>
    match m s with
    | mkRun s1 evs1 (Normal a) =>
        match k a s1 with
        | mkRun s2 evs2 c => mkRun s2 (evs1 ++ evs2)%list c
        end
    | mkRun s1 evs1 (Throw e) => mkRun s1 evs1 (Throw e)
    | mkRun s1 evs1 (Return p) => mkRun s1 evs1 (Return p)
    end.

(** [return p;] *)
Definition return_ {R A} (p : Promise R) : Method R A :=
  fun s => mkRun s [] (Return p).

(** [throw e;] *)
Definition throw {R A} (e : Error) : Method R A :=
  fun s => mkRun s [] (Throw e).

(** [try { body } catch (err) { handler err }] *)
Definition try_catch {R A} (body : Method R A) (handler : Error -> Method R A)
  : Method R A :=
  fun s =>
    match body s with
    | mkRun s1 evs1 (Throw e) =>
        match handler e s1 with
        | mkRun s2 evs2 c => mkRun s2 (evs1 ++ evs2)%list c
        end
    | r => r
    end.

(** The promise of an [async] function whose body is [m]. *)
Definition async {R} (undefined : R) (m : Method R unit) : AsyncFn R :=
  fun s =>
    match m s with
    | mkRun s1 evs (Normal _) => mkRun s1 evs (Resolve undefined)
    | mkRun s1 evs (Throw e) => mkRun s1 evs (Reject e)
    | mkRun s1 evs (Return p) => mkRun s1 evs p
    end.

(** An [async] function every path of which ends in [return] or [throw]:
    its body cannot complete normally. *)
Definition async_returns {R} (m : Method R Empty_set) : AsyncFn R :=
  fun s =>
    match m s with
    | mkRun _ _ (Normal a) => match a with end
    | mkRun s1 evs (Throw e) => mkRun s1 evs (Reject e)
    | mkRun s1 evs (Return p) => mkRun s1 evs p
    end.

(** [await c(...)] on a helper; [ev] records the call. *)
Definition await {R A} (c : W -> W * Promise A) (ev : Promise A -> Event)
  : Method R A :=
  fun s =>
    match c (world s) with
    | (w, Resolve a) =>
        mkRun (mkSys (this s) w (pending s)) [ev (Resolve a)] (Normal a)
    | (w, Reject e) =>
        mkRun (mkSys (this s) w (pending s)) [ev (Reject e)] (Throw e)
    end.

(** [await this.f(...)] on a method of the class. *)
Definition await_method {R A} (f : AsyncFn A) : Method R A :=
  fun s =>
    match f s with
    | mkRun s1 evs (Resolve a) => mkRun s1 evs (Normal a)
    | mkRun s1 evs (Reject e) => mkRun s1 evs (Throw e)
    end.

(** [this.f(...)] as an expression statement: the promise is dropped. *)
Definition call_dropped {R A} (f : AsyncFn A) : Method R unit :=
  fun s =>
    match f s with
    | mkRun s1 evs _ => mkRun s1 evs (Normal tt)
    end.

Definition read {R A} (f : Database -> A) : Method R A :=
  fun s => mkRun s [] (Normal (f (this s))).

Definition update {R} (f : Database -> Database) : Method R unit :=
  fun s => mkRun (mkSys (f (this s)) (world s) (pending s)) [] (Normal tt).

(** [new Date().getTime()] *)
Definition clock {R} (now : W -> Z) : Method R Z :=
  fun s => mkRun s [] (Normal (now (world s))).

Definition log {R} (ev : Event) : Method R unit :=
  fun s => mkRun s [ev] (Normal tt).

(** Hand a callback to the driver. *)
Definition driver {R} (c : W -> W * option Error) (ev : option Error -> Event)
  (cb : option Error -> Callback) : Method R unit :=
  fun s =>
    match c (world s) with
    | (w, err) =>
        mkRun (mkSys (this s) w (pending s ++ [cb err])) [ev err] (Normal tt)
    end.

Notation "x <- m ;; k" := (bind m (fun x => k))
  (at level 100, m at next level, right associativity).
Notation "m ;; k" := (bind m (fun _ => k))
  (at level 100, right associativity).

Definition when {R} (b : bool) (m : Method R unit) : Method R unit :=
  if b then m else ret tt.

Variable C : Collaborators.

(** ** The constructor *)

Definition new_Database (dbName : string) (encrypted : bool) (mode : string)
  (version : Z) (upgDict : gmap Z capSQLiteVersionUpgrade)
  : Error + Database :=
  let pathDB := getFilePath C dbName in
  if (String.length pathDB =? 0)%nat
  then inl (mkError ("Could not generate a path to " +:+ dbName))
  else inr (mkDatabase false dbName encrypted mode version pathDB None upgDict).

(** ** [isDBOpen] *)

Definition isDBOpen (s : Sys) : bool := _isDBOpen (this s).

(** ** [close] *)

Definition close : AsyncFn unit :=
  async tt (
    log EvClose ;;
    mDB <- read _mDB ;;
    isOpen <- read _isDBOpen ;;
    match mDB with
    | Some conn =>
        when isOpen
          (driver (driver_close C conn) EvDriverClose CbClose)
    | None => ret tt
    end ;;
    return_ (Resolve tt)).

(** The callback given to [_mDB.close]. *)
Definition close_callback (err : option Error) : AsyncFn unit :=
  async tt (
    match err with
    | Some e =>
        dbName <- read _dbName ;;
        let msg := "Close: Failed in closing: " in
        let msg := msg +:+ dbName +:+ "  " +:+ message e in
        return_ (Reject (mkError msg))
    | None =>
        update (with_isDBOpen false) ;;
        return_ (Resolve tt)
    end).

(** ** [open] *)

Definition open : AsyncFn unit :=
  async tt (
    update (with_isDBOpen false) ;;
    let password := "" in
    try_catch
      (encrypted <- read _encrypted ;;
       mode <- read _mode ;;
       let password :=
         if encrypted && (String.eqb mode "secret" || String.eqb mode "encryption")
         then secret C else password in
       mode <- read _mode ;;
       password <-
         (if String.eqb mode "newsecret" then
            let oPassword := secret C in
            let nPassword := newsecret C in
            pathDB <- read _pathDB ;;
            await (changePassword C pathDB oPassword nPassword)
                  (EvChangePassword pathDB oPassword nPassword) ;;
            ret nPassword
          else ret password) ;;
       mode <- read _mode ;;
       when (String.eqb mode "encryption")
         (pathDB <- read _pathDB ;;
          await (encryptDatabase C pathDB password)
                (EvEncryptDatabase pathDB password)) ;;
       pathDB <- read _pathDB ;;
       conn <- await (openOrCreateDatabase C pathDB password)
                     (EvOpenOrCreateDatabase pathDB password) ;;
       update (with_mDB (Some conn)) ;;
       mDB <- read _mDB ;;
       curVersion <- await (getVersion C mDB) (EvGetVersion mDB) ;;
       update (with_isDBOpen true) ;;
       version <- read _version ;;
       when (version >? curVersion)
         (try_catch
            (mDB <- read _mDB ;;
             dict <- read _vUpgDict ;;
             dbName <- read _dbName ;;
             version <- read _version ;;
             await (onUpgrade C mDB dict dbName curVersion version)
                   (EvOnUpgrade dbName curVersion version) ;;
             dbName <- read _dbName ;;
             await (deleteFileName C ("backup-" +:+ dbName))
                   (EvDeleteFileName ("backup-" +:+ dbName)))
            (fun err =>
               try_catch
                 (dbName <- read _dbName ;;
                  await (restoreFileName C dbName "backup")
                        (EvRestoreFileName dbName "backup"))
                 (fun err =>
                    return_ (Reject (mkError ("Open: " +:+ message err)))))) ;;
       return_ (Resolve tt))
      (fun err =>
         isOpen <- read _isDBOpen ;;
         when isOpen (call_dropped close) ;;
         return_ (Reject (mkError ("Open: " +:+ message err))))).

(** ** [executeSQL] *)

Definition executeSQL (sql : string) : AsyncFn Z :=
  async_returns (
    isOpen <- read _isDBOpen ;;
    when (negb isOpen)
      (dbName <- read _dbName ;;
       let msg := "ExecuteSQL: Database " +:+ dbName +:+ " " in
       let msg := msg +:+ "not opened" in
       return_ (Reject (mkError msg))) ;;
    try_catch
      (mDB <- read _mDB ;;
       isOpen <- read _isDBOpen ;;
       await (beginTransaction C mDB isOpen) (EvBeginTransaction isOpen) ;;
       mDB <- read _mDB ;;
       changes <- await (execute C mDB sql) (EvExecute sql) ;;
       when (changes <? 0)
         (return_ (Reject (mkError "ExecuteSQL: changes < 0"))) ;;
       mDB <- read _mDB ;;
       isOpen <- read _isDBOpen ;;
       await (commitTransaction C mDB isOpen) (EvCommitTransaction isOpen) ;;
       return_ (Resolve changes))
      (fun err =>
         let msg := "ExecuteSQL: " +:+ message err in
         msg <- try_catch
                  (mDB <- read _mDB ;;
                   isOpen <- read _isDBOpen ;;
                   await (rollbackTransaction C mDB isOpen)
                         (EvRollbackTransaction isOpen) ;;
                   ret msg)
                  (fun err => ret (msg +:+ " : " +:+ message err)) ;;
         return_ (Reject (mkError ("ExecuteSQL: " +:+ msg))))).

(** ** [runSQL] *)

(** Reading [run] off an undefined [_mDB]. *)
Definition TypeError_run : Error :=
  mkError "Cannot read properties of undefined (reading 'run')".

Definition runSQL (statement : string) (values : list Value)
  : AsyncFn (option RetRes) :=
  async None (
    isOpen <- read _isDBOpen ;;
    when (negb isOpen)
      (dbName <- read _dbName ;;
       let msg := "RunSQL: Database " +:+ dbName +:+ " " in
       let msg := msg +:+ "not opened" in
       return_ (Reject (mkError msg))) ;;
    initChanges <-
      try_catch
        (mDB <- read _mDB ;;
         initChanges <- await (dbChanges C mDB) EvDbChanges ;;
         mDB <- read _mDB ;;
         isOpen <- read _isDBOpen ;;
         await (beginTransaction C mDB isOpen) (EvBeginTransaction isOpen) ;;
         ret initChanges)
        (fun err => return_ (Reject (mkError ("RunSQL: " +:+ message err)))) ;;
    mDB <- read _mDB ;;
    match mDB with
    | Some conn =>
        driver (driver_run C conn statement values)
               (EvDriverRun statement values)
               (fun err => CbRun err initChanges)
    | None => throw TypeError_run
    end).

(** The [async (err) => ...] callback given to [_mDB.run]. *)
Definition run_callback (err : option Error) (initChanges : Z)
  : AsyncFn (option RetRes) :=
  async None (
    let retRes := mkRetRes (-1) (-1) in
    match err with
    | Some err0 =>
        let msg := message err0 in
        try_catch
          (mDB <- read _mDB ;;
           isOpen <- read _isDBOpen ;;
           await (rollbackTransaction C mDB isOpen)
                 (EvRollbackTransaction isOpen) ;;
           return_ (Reject (mkError ("RunSQL: " +:+ message err0))))
          (fun err =>
             return_ (Reject (mkError ("RunSQL: " +:+ msg +:+ ": " +:+ message err))))
    | None =>
        try_catch
          (mDB <- read _mDB ;;
           isOpen <- read _isDBOpen ;;
           await (commitTransaction C mDB isOpen) (EvCommitTransaction isOpen) ;;
           mDB <- read _mDB ;;
           c <- await (dbChanges C mDB) EvDbChanges ;;
           let retRes := mkRetRes (c - initChanges) (lastId retRes) in
           mDB <- read _mDB ;;
           l <- await (getLastId C mDB) EvGetLastId ;;
           let retRes := mkRetRes (changes retRes) l in
           return_ (Resolve (Some retRes)))
          (fun err => return_ (Reject (mkError ("RunSQL: " +:+ message err))))
    end).

(** ** [execSet] *)

Definition execSet (set : list SetItem) : AsyncFn (option RetRes) :=
  async None (
    isOpen <- read _isDBOpen ;;
    when (negb isOpen)
      (dbName <- read _dbName ;;
       let msg := "ExecSet: Database " +:+ dbName +:+ " " in
       let msg := msg +:+ "not opened" in
       return_ (Reject (mkError msg))) ;;
    let retRes := mkRetRes (-1) (-1) in
    initChanges <-
      try_catch
        (mDB <- read _mDB ;;
         initChanges <- await (dbChanges C mDB) EvDbChanges ;;
         mDB <- read _mDB ;;
         isOpen <- read _isDBOpen ;;
         await (beginTransaction C mDB isOpen) (EvBeginTransaction isOpen) ;;
         ret initChanges)
        (fun err => return_ (Reject (mkError ("ExecSet: " +:+ message err)))) ;;
    try_catch
      (mDB <- read _mDB ;;
       l <- await (executeSet C mDB set) (EvExecuteSet set) ;;
       let retRes := mkRetRes (changes retRes) l in
       mDB <- read _mDB ;;
       isOpen <- read _isDBOpen ;;
       await (commitTransaction C mDB isOpen) (EvCommitTransaction isOpen) ;;
       mDB <- read _mDB ;;
       c <- await (dbChanges C mDB) EvDbChanges ;;
       let retRes := mkRetRes (c - initChanges) (lastId retRes) in
       return_ (Resolve (Some retRes)))
      (fun err =>
         let msg := message err in
         try_catch
           (mDB <- read _mDB ;;
            isOpen <- read _isDBOpen ;;
            await (rollbackTransaction C mDB isOpen)
                  (EvRollbackTransaction isOpen))
           (fun err =>
              return_ (Reject (mkError ("ExecSet: " +:+ msg +:+ ": " +:+ message err)))))).

(** ** [createSyncTable] *)

Definition sync_table_stmts (date : Z) : string :=
  let stmts :=
    newline +:+ spaces 24 +:+ "CREATE TABLE IF NOT EXISTS sync_table (" +:+
    newline +:+ spaces 28 +:+ "id INTEGER PRIMARY KEY NOT NULL," +:+
    newline +:+ spaces 28 +:+ "sync_date INTEGER" +:+
    newline +:+ spaces 28 +:+ ");" in
  stmts +:+ "INSERT INTO sync_table (sync_date) VALUES (" +:+
    newline +:+ spaces 28 +:+ dquote +:+ pretty date +:+ dquote +:+ ");".

Definition createSyncTable : AsyncFn Z :=
  async_returns (
    isOpen <- read _isDBOpen ;;
    when (negb isOpen)
      (dbName <- read _dbName ;;
       let msg := "CreateSyncTable: Database " +:+ dbName +:+ " " in
       let msg := msg +:+ "not opened" in
       return_ (Reject (mkError msg))) ;;
    let changes := -1 in
    isOpen <- read _isDBOpen ;;
    try_catch
      (mDB <- read _mDB ;;
       retB <- await (isTableExists C mDB isOpen "sync_table")
                     (EvIsTableExists isOpen "sync_table") ;;
       changes <-
         (if negb retB then
            ms <- clock (now_ms C) ;;
            let date := round_seconds ms in
            let stmts := sync_table_stmts date in
            changes <- await_method (executeSQL stmts) ;;
            when (changes <? 0)
              (return_ (Reject (mkError "CreateSyncTable: failed changes < 0"))) ;;
            ret changes
          else ret changes) ;;
       return_ (Resolve changes))
      (fun err =>
         return_ (Reject (mkError ("CreateSyncTable: " +:+ message err))))).

(** ** [importJson] *)

Definition importJson (jsonData : JsonSQLite) : AsyncFn Z :=
  async_returns (
    let changes := -1 in
    isOpen <- read _isDBOpen ;;
    if isOpen then
      try_catch
        (mDB <- read _mDB ;;
         changes <- await (createDatabaseSchema C mDB jsonData)
                          (EvCreateDatabaseSchema jsonData) ;;
         changes <-
           (if negb (changes =? -1) then
              mDB <- read _mDB ;;
              await (createTablesData C mDB jsonData)
                    (EvCreateTablesData jsonData)
            else ret changes) ;;
         return_ (Resolve changes))
        (fun err => return_ (Reject (mkError ("ImportJson: " +:+ message err))))
    else return_ (Reject (mkError "ImportJson: database is closed"))).

(** ** [exportJson] *)

(** The [inJson] object built at the top of [exportJson]. *)
Definition export_header (d : Database) (mode : string) : JsonSQLite :=
  {| database := slice (_dbName d) 0 (-9);
     version := _version d;
     encrypted := false;
     mode := mode;
     tables := None |}.

Definition exportJson (mode : string) : AsyncFn JsonSQLite :=
  async_returns (
    inJson <- read (fun d => export_header d mode) ;;
    isOpen <- read _isDBOpen ;;
    if isOpen then
      try_catch
        (mDB <- read _mDB ;;
         retJson <- await (createExportObject C mDB inJson)
                          (EvCreateExportObject inJson) ;;
         let isValid := isJsonSQLite C retJson in
         if isValid then return_ (Resolve retJson)
         else return_ (Reject (mkError "ExportJson: retJson not valid")))
        (fun err => return_ (Reject (mkError ("ExportJson: " +:+ message err))))
    else return_ (Reject (mkError "ExportJson: database is closed"))).

(** ** The driver calling back *)

(** The driver calls a queued callback and drops what it returns. *)
Definition call_back (cb : Callback) (s : Sys) : Sys * list Event :=
  match cb with
  | CbClose err =>
      match close_callback err s with mkRun s1 evs _ => (s1, evs) end
  | CbRun err initChanges =>
      match run_callback err initChanges s with mkRun s1 evs _ => (s1, evs) end
  end.

(** Run every callback queued so far, oldest first. *)
Definition drain (s : Sys) : Sys * list Event :=
  fold_left
    (fun acc cb =>
       match call_back cb (fst acc) with
       | (s1, evs) => (s1, (snd acc ++ evs)%list)
       end)
    (pending s)
    (mkSys (this s) (world s) [], []).

End Controller.

Arguments Collaborators : clear implicits.
Arguments Database : clear implicits.
Arguments mkRun {W Conn X} _ _ _.
Arguments after {W Conn X} _.
Arguments events {W Conn X} _.
Arguments result {W Conn X} _.
Arguments Sys : clear implicits.
Arguments Event : clear implicits.

(** * A simulated world

    A concrete world to run the controller in: one database file, its
    backup file, and a fault table that makes chosen helper calls fail.
    The helpers that only report (transactions, counters, JSON codec) are
    stand-ins; the upgrade engine and the backup gate follow the
    specification, sections 4.2 and 4.3. *)

Module Sim.

(** Helper operations that can be made to fail. *)
Inductive Op :=
| OpChangePassword | OpEncryptDatabase | OpOpenOrCreateDatabase
| OpGetVersion | OpSnapshot | OpDeleteFileName | OpRestoreFileName
| OpBeginTransaction | OpCommitTransaction | OpRollbackTransaction
| OpExecute | OpExecuteSet | OpDbChanges | OpGetLastId | OpIsTableExists
| OpCreateDatabaseSchema | OpCreateTablesData | OpCreateExportObject
| OpDriverClose | OpDriverRun.

(** What the database file holds: the stored schema version and the
    statements applied so far. *)
Record Content := mkContent {
  user_version : Z;
  applied : list string }.

Record World := mkWorld {
  live : Content;                 (* the database file *)
  backup : option Content;        (* the file [backup-<dbName>] *)
  faults : Op -> bool;            (* helper calls that fail *)
  bad_statement : string -> bool; (* statements the engine rejects *)
  negative_changes : bool;        (* [execute] reports the sentinel -1 *)
  schema_sentinel : bool;         (* [createDatabaseSchema] reports -1 *)
  time_ms : Z }.

Definition set_live (c : Content) (w : World) : World :=
  mkWorld c (backup w) (faults w) (bad_statement w) (negative_changes w)
          (schema_sentinel w) (time_ms w).

Definition set_backup (b : option Content) (w : World) : World :=
  mkWorld (live w) b (faults w) (bad_statement w) (negative_changes w)
          (schema_sentinel w) (time_ms w).

Definition failure {A} (what : string) : Promise A :=
  Reject (mkError (what +:+ " failed")).

(** A helper that touches nothing and fails when told to. Changing the
    password and encrypting are of this kind: they change how the file
    is stored, not what it holds. *)
Definition plain {A} (op : Op) (what : string) (a : World -> A)
  : World -> World * Promise A :=
  fun w => if faults w op then (w, failure what) else (w, Resolve (a w)).

(** Modelled from the spec: the snapshot taken by [UtilsUpgrade.onUpgrade]
    is not among the sources. Section 4.2: the snapshot is a copy of the
    database under the [backup-] name, taken before the engine begins; a
    failure there aborts before any schema change. *)
Definition snapshot (w : World) : World * Promise unit :=
  if faults w OpSnapshot then (w, failure "snapshot")
  else (set_backup (Some (live w)) w, Resolve tt).

(** Modelled from the spec: section 4.3, the keys [k] of the step table
    with [cur < k <= target], ascending ([UtilsUpgrade] is not among the
    sources). *)
Definition upgrade_keys (dict : gmap Z capSQLiteVersionUpgrade)
  (cur target : Z) : list Z :=
  filter (fun k => is_Some (dict !! k)) (seqZ (cur + 1) (target - cur)).

(** Modelled from the spec: section 4.3, one step is one transaction
    ([UtilsUpgrade] is not among the sources). A step with a statement the
    engine rejects changes nothing and fails. *)
Definition apply_step (step : capSQLiteVersionUpgrade) (w : World)
  : World * Promise unit :=
  if existsb (bad_statement w) (upg_statements step)
  then (w, failure "upgrade step")
  else (set_live (mkContent (user_version (live w))
                            (applied (live w) ++ upg_statements step)) w,
        Resolve tt).

(** Modelled from the spec: section 4.3, the steps are applied in order
    and the first failure ends the run ([UtilsUpgrade] is not among the
    sources). The steps before the failing one stay applied. *)
Fixpoint apply_steps (steps : list capSQLiteVersionUpgrade) (w : World)
  : World * Promise unit :=
  match steps with
  | [] => (w, Resolve tt)
  | step :: rest =>
      match apply_step step w with
      | (w1, Resolve _) => apply_steps rest w1
      | (w1, Reject e) => (w1, Reject e)
      end
  end.

(** Modelled from the spec: section 3, the step table may have gaps; only
    the keys present contribute a step. *)
Definition steps_of (dict : gmap Z capSQLiteVersionUpgrade) (keys : list Z)
  : list capSQLiteVersionUpgrade :=
  omap (fun k => dict !! k) keys.

(** Modelled from the spec: [UtilsUpgrade.onUpgrade] is not among the
    sources. Section 4.3: [Idle -> Snapshotting -> Applying -> Committed |
    RolledBack]; on success the stored version becomes the target. *)
Definition sim_onUpgrade (h : option string)
  (dict : gmap Z capSQLiteVersionUpgrade) (dbName : string) (cur target : Z)
  (w : World) : World * Promise Z :=
  match snapshot w with
  | (w1, Reject e) => (w1, Reject e)
  | (w1, Resolve _) =>
      match apply_steps (steps_of dict (upgrade_keys dict cur target)) w1 with
      | (w2, Reject e) => (w2, Reject e)
      | (w2, Resolve _) =>
          (set_live (mkContent target (applied (live w2))) w2, Resolve 0)
      end
  end.

(** Modelled from the spec: [UtilsFile.restoreFileName] is not among the
    sources. Section 4.2: restore copies the snapshot back over the live
    database file. Without a snapshot there is nothing to copy. *)
Definition sim_restoreFileName (name prefix : string) (w : World)
  : World * Promise unit :=
  if faults w OpRestoreFileName then (w, failure "restoreFileName")
  else match backup w with
       | Some c => (set_live c w, Resolve tt)
       | None => (w, Reject (mkError (prefix +:+ "-" +:+ name +:+ " does not exist")))
       end.

(** Modelled from the spec: [UtilsFile.deleteFileName] is not among the
    sources. Section 4.2: discard deletes the snapshot. *)
Definition sim_deleteFileName (name : string) (w : World)
  : World * Promise unit :=
  if faults w OpDeleteFileName then (w, failure "deleteFileName")
  else if String.prefix "backup-" name
       then (set_backup None w, Resolve tt)
       else (w, Resolve tt).

(** Stand-ins for the SQL engine. *)
Definition mentions (pat stmt : string) : bool :=
  match String.index 0 pat stmt with
  | Some _ => true
  | None => false
  end.

Definition sim_execute (h : option string) (sql : string) (w : World)
  : World * Promise Z :=
  if faults w OpExecute then (w, failure "execute")
  else if negative_changes w then (w, Resolve (-1))
  else (set_live (mkContent (user_version (live w)) (applied (live w) ++ [sql])) w,
        Resolve 1).

Definition sim_isTableExists (h : option string) (isOpen : bool)
  (name : string) (w : World) : World * Promise bool :=
  plain OpIsTableExists "isTableExists"
    (fun w => existsb (mentions ("CREATE TABLE IF NOT EXISTS " +:+ name))
                      (applied (live w))) w.

Definition sim_driver (op : Op) (what : string) (w : World)
  : World * option Error :=
  if faults w op then (w, Some (mkError (what +:+ " failed"))) else (w, None).

Definition collaborators : Collaborators World string :=
  {| secret := "sqlite secret";
     newsecret := "sqlite new secret";
     getFilePath := fun name => "Databases/" +:+ name;
     deleteFileName := sim_deleteFileName;
     restoreFileName := sim_restoreFileName;
     encryptDatabase := fun _ _ => plain OpEncryptDatabase "encryptDatabase" (fun _ => tt);
     changePassword := fun _ _ _ => plain OpChangePassword "changePassword" (fun _ => tt);
     openOrCreateDatabase := fun path _ =>
       plain OpOpenOrCreateDatabase "openOrCreateDatabase" (fun _ => path);
     getVersion := fun _ =>
       plain OpGetVersion "getVersion" (fun w => user_version (live w));
     beginTransaction := fun _ _ => plain OpBeginTransaction "beginTransaction" (fun _ => tt);
     commitTransaction := fun _ _ => plain OpCommitTransaction "commitTransaction" (fun _ => tt);
     rollbackTransaction := fun _ _ =>
       plain OpRollbackTransaction "rollbackTransaction" (fun _ => tt);
     execute := sim_execute;
     executeSet := fun _ set =>
       plain OpExecuteSet "executeSet" (fun _ => Z.of_nat (length set));
     dbChanges := fun _ =>
       plain OpDbChanges "dbChanges" (fun w => Z.of_nat (length (applied (live w))));
     getLastId := fun _ =>
       plain OpGetLastId "getLastId" (fun w => Z.of_nat (length (applied (live w))));
     onUpgrade := sim_onUpgrade;
     isTableExists := sim_isTableExists;
     isJsonSQLite := fun json => match tables json with Some _ => true | None => false end;
     createDatabaseSchema := fun _ json w =>
       if schema_sentinel w then (w, Resolve (-1))
       else plain OpCreateDatabaseSchema "createDatabaseSchema"
              (fun _ => Z.of_nat (length (default [] (tables json)))) w;
     createTablesData := fun _ json =>
       plain OpCreateTablesData "createTablesData"
         (fun _ => Z.of_nat (length (default [] (tables json))));
     createExportObject := fun _ inJson =>
       plain OpCreateExportObject "createExportObject"
         (fun _ => mkJsonSQLite (database inJson) (version inJson)
                     (encrypted inJson) (mode inJson) (Some []));
     driver_close := fun _ => sim_driver OpDriverClose "close";
     driver_run := fun _ _ _ => sim_driver OpDriverRun "run";
     now_ms := time_ms |}.

Definition no_faults : Op -> bool := fun _ => false.

Definition only (op : Op) : Op -> bool :=
  fun o =>
    match op, o with
    | OpChangePassword, OpChangePassword
    | OpEncryptDatabase, OpEncryptDatabase
    | OpOpenOrCreateDatabase, OpOpenOrCreateDatabase
    | OpGetVersion, OpGetVersion
    | OpSnapshot, OpSnapshot
    | OpDeleteFileName, OpDeleteFileName
    | OpRestoreFileName, OpRestoreFileName
    | OpBeginTransaction, OpBeginTransaction
    | OpCommitTransaction, OpCommitTransaction
    | OpRollbackTransaction, OpRollbackTransaction
    | OpExecute, OpExecute
    | OpExecuteSet, OpExecuteSet
    | OpDbChanges, OpDbChanges
    | OpGetLastId, OpGetLastId
    | OpIsTableExists, OpIsTableExists
    | OpCreateDatabaseSchema, OpCreateDatabaseSchema
    | OpCreateTablesData, OpCreateTablesData
    | OpCreateExportObject, OpCreateExportObject
    | OpDriverClose, OpDriverClose
    | OpDriverRun, OpDriverRun => true
    | _, _ => false
    end.

Definition either (f g : Op -> bool) : Op -> bool := fun o => f o || g o.

(** A database file at schema version 1 holding one table. *)
Definition content_v1 : Content :=
  mkContent 1 ["CREATE TABLE IF NOT EXISTS users (id INTEGER PRIMARY KEY NOT NULL);"].

Definition world_v1 (f : Op -> bool) (bad : string -> bool) : World :=
  mkWorld content_v1 None f bad false false 1704067200000.

(** Upgrade steps to versions 2 and 3. *)
Definition upgrade_steps : gmap Z capSQLiteVersionUpgrade :=
  {[ 2 := mkUpgrade ["ALTER TABLE users ADD COLUMN email TEXT;"];
     3 := mkUpgrade ["ALTER TABLE users ADD COLUMN age INTEGER;"] ]}.

(** An engine that rejects the statement of the step to version 3. *)
Definition rejects_age : string -> bool :=
  String.eqb "ALTER TABLE users ADD COLUMN age INTEGER;".

Definition accepts_all : string -> bool := fun _ => false.

Definition closed_db (target : Z) : Database string :=
  mkDatabase false "testSQLite.db" false "no-encryption" target
             "Databases/testSQLite.db" None upgrade_steps.

Definition opened_db (target : Z) : Database string :=
  mkDatabase true "testSQLite.db" false "no-encryption" target
             "Databases/testSQLite.db" (Some "Databases/testSQLite.db")
             upgrade_steps.

Definition start (d : Database string) (w : World) : Sys World string :=
  mkSys d w [].

(** The inputs used below. *)

(** Closed controller wanting version 3; the engine rejects the step to
    version 3 after applying the step to version 2. *)
Definition sys_step_fails : Sys World string :=
  start (closed_db 3) (world_v1 no_faults rejects_age).

(** The same, and the restore fails as well. *)
Definition sys_step_and_restore_fail : Sys World string :=
  start (closed_db 3) (world_v1 (only OpRestoreFileName) rejects_age).

(** Closed controller wanting version 2; the upgrade succeeds and the
    deletion of the backup fails. *)
Definition sys_discard_fails : Sys World string :=
  start (closed_db 2) (world_v1 (only OpDeleteFileName) accepts_all).

(** The same, and the restore fails as well. *)
Definition sys_discard_and_restore_fail : Sys World string :=
  start (closed_db 2)
        (world_v1 (either (only OpDeleteFileName) (only OpRestoreFileName))
                  accepts_all).

(** Closed controller whose target version is the stored one. *)
Definition sys_up_to_date : Sys World string :=
  start (closed_db 1) (world_v1 no_faults accepts_all).

(** Open controller on a healthy world. *)
Definition sys_open : Sys World string :=
  start (opened_db 1) (world_v1 no_faults accepts_all).

(** Open controller; the named helper fails. *)
Definition sys_open_failing (op : Op) : Sys World string :=
  start (opened_db 1) (world_v1 (only op) accepts_all).

(** Open controller; [createDatabaseSchema] gives the sentinel -1. *)
Definition sys_open_schema_sentinel : Sys World string :=
  start (opened_db 1)
        (mkWorld content_v1 None no_faults accepts_all false true 1704067200000).

(** Open controller; [execute] reports the negative sentinel. *)
Definition sys_open_negative_changes : Sys World string :=
  start (opened_db 1)
        (mkWorld content_v1 None no_faults accepts_all true false 1704067200000).

(** Closed controller; the connection is obtained and reading the
    stored version fails. *)
Definition sys_getVersion_fails : Sys World string :=
  start (closed_db 2) (world_v1 (only OpGetVersion) accepts_all).

(** A document with one table and one row. *)
Definition json_users : JsonSQLite :=
  mkJsonSQLite "testSQLite" 1 false "full"
    (Some [mkJsonTable "users" [("id", "INTEGER PRIMARY KEY NOT NULL")]
                       [] [] [] [[VNum 1]]]).

Definition set_users : list SetItem :=
  [mkSetItem "INSERT INTO users (id) VALUES (?);" [VNum 2]].

End Sim.

(** * The other methods of the class

    [deleteDB], [isTableExists], [selectSQL], [setSyncDate] and
    [getSyncDate]. They need a few helpers more: a synchronous file test,
    the query helper, the reader of the stored synchronisation date, and
    the parsing done by [new Date(string)]. Calls of the query helper and
    of the date reader are not recorded as events. *)

Arguments Normal {R A} a.
Arguments Throw {R A} e.
Arguments Return {R A} p.

Module Db.

Section OtherMethods.

Context {W Conn Row : Type}.

Record Queries := mkQueries {
  (* UtilsFile.isFileExists: synchronous *)
  isFileExists : string -> W -> bool;
  (* UtilsSQLite.queryAll *)
  queryAll : option Conn -> string -> list string -> W ->
             W * Promise (list Row);
  (* ExportToJson.getSyncDate *)
  eTJson_getSyncDate : option Conn -> W -> W * Promise Z;
  (* [new Date(s).getTime()]: [None] stands for [NaN] *)
  Date_getTime : string -> option Z }.

(** The object resolved by [setSyncDate]; [message] may be absent. *)
Record SetSyncDateResult := mkSetSyncDateResult {
  sd_result : bool;
  sd_message : option string }.

(** The object resolved by [getSyncDate]; [message] may be absent. *)
Record GetSyncDateResult := mkGetSyncDateResult {
  gd_syncDate : Z;
  gd_message : option string }.

Notation "x <- m ;; k" := (bind m (fun x => k))
  (at level 100, m at next level, right associativity).
Notation "m ;; k" := (bind m (fun _ => k))
  (at level 100, right associativity).

(** [await c(...)] on a helper whose calls are not recorded. *)
Definition await_quiet {R A} (c : W -> W * Promise A) : @Method W Conn R A :=
  fun s =>
    match c (world s) with
    | (w, Resolve a) => mkRun (mkSys (this s) w (pending s)) [] (Normal a)
    | (w, Reject e) => mkRun (mkSys (this s) w (pending s)) [] (Throw e)
    end.

(** A synchronous helper that only looks at the world. *)
Definition look {R A} (f : W -> A) : @Method W Conn R A :=
  fun s => mkRun s [] (Normal (f (world s))).

Variable C : Collaborators W Conn.
Variable Q : Queries.

(** ** [deleteDB] *)

Definition deleteDB (dbName : string) : AsyncFn unit :=
  async tt (
    isExists <- look (isFileExists Q dbName) ;;
    isOpen <- read _isDBOpen ;;
    when (isExists && negb isOpen)
      (try_catch
         (await_method (open C))
         (fun err =>
            return_ (Reject (mkError ("DeleteDB: " +:+ message err))))) ;;
    try_catch
      (await_method (close C))
      (fun err => return_ (Reject (mkError "DeleteDB: Close failed"))) ;;
    when isExists
      (try_catch
         (await (deleteFileName C dbName) (EvDeleteFileName dbName))
         (fun err =>
            let msg := "DeleteDB: deleteFile " +:+ dbName in
            let msg := msg +:+ " failed " +:+ message err in
            return_ (Reject (mkError msg)))) ;;
    return_ (Resolve tt)).

(** ** [isTableExists] *)

Definition isTableExists (tableName : string) : AsyncFn bool :=
  async_returns (
    isOpen <- read _isDBOpen ;;
    when (negb isOpen)
      (dbName <- read _dbName ;;
       let msg := "isTableExists: Database " +:+ dbName +:+ " " in
       let msg := msg +:+ "not opened" in
       return_ (Reject (mkError msg))) ;;
    isOpen <- read _isDBOpen ;;
    try_catch
      (mDB <- read _mDB ;;
       retB <- await (isTableExists C mDB isOpen tableName)
                     (EvIsTableExists isOpen tableName) ;;
       return_ (Resolve retB))
      (fun err =>
         let msg := "IsTableExists: " +:+ message err in
         return_ (Reject (mkError msg)))).

(** ** [selectSQL] *)

Definition selectSQL (sql : string) (values : list string)
  : AsyncFn (list Row) :=
  async_returns (
    isOpen <- read _isDBOpen ;;
    when (negb isOpen)
      (dbName <- read _dbName ;;
       let msg := "SelectSQL: Database " +:+ dbName +:+ " " in
       let msg := msg +:+ "not opened" in
       return_ (Reject (mkError msg))) ;;
    try_catch
      (mDB <- read _mDB ;;
       retArr <- await_quiet (queryAll Q mDB sql values) ;;
       return_ (Resolve retArr))
      (fun err => return_ (Reject (mkError ("SelectSQL: " +:+ message err))))).

(** ** [setSyncDate] *)

(** [`${Math.round(new Date(syncDate).getTime() / 1000)}`] *)
Definition sDate_text (syncDate : string) : string :=
  match Date_getTime Q syncDate with
  | Some ms => pretty (round_seconds ms)
  | None => "NaN"
  end.

Definition setSyncDate_stmt (syncDate : string) : string :=
  let stmt := "UPDATE sync_table SET sync_date = " in
  stmt +:+ sDate_text syncDate +:+ " WHERE id = 1;".

Definition setSyncDate (syncDate : string) : AsyncFn SetSyncDateResult :=
  async_returns (
    isOpen <- read _isDBOpen ;;
    when (negb isOpen)
      (dbName <- read _dbName ;;
       let msg := "SetSyncDate: Database " +:+ dbName +:+ " " in
       let msg := msg +:+ "not opened" in
       return_ (Resolve (mkSetSyncDateResult false (Some msg)))) ;;
    try_catch
      (let stmt := setSyncDate_stmt syncDate in
       changes <- await_method (executeSQL C stmt) ;;
       if changes <? 0
       then return_ (Resolve (mkSetSyncDateResult false
                                (Some "setSyncDate failed")))
       else return_ (Resolve (mkSetSyncDateResult true None)))
      (fun err =>
         return_ (Resolve (mkSetSyncDateResult false
                             (Some ("setSyncDate failed: " +:+ message err)))))).

(** ** [getSyncDate] *)

Definition getSyncDate : AsyncFn GetSyncDateResult :=
  async_returns (
    isOpen <- read _isDBOpen ;;
    when (negb isOpen)
      (dbName <- read _dbName ;;
       let msg := "GetSyncDate: Database " +:+ dbName +:+ " " in
       let msg := msg +:+ "not opened" in
       return_ (Resolve (mkGetSyncDateResult 0 (Some msg)))) ;;
    try_catch
      (mDB <- read _mDB ;;
       syncDate <- await_quiet (eTJson_getSyncDate Q mDB) ;;
       if syncDate >? 0
       then return_ (Resolve (mkGetSyncDateResult syncDate None))
       else return_ (Resolve (mkGetSyncDateResult 0
                                (Some "setSyncDate failed"))))
      (fun err =>
         return_ (Resolve (mkGetSyncDateResult 0
                             (Some ("setSyncDate failed: " +:+ message err)))))).

End OtherMethods.

Arguments Queries : clear implicits.

End Db.

(** * The simulated world, for the other methods *)

Module SimMore.

Import Sim.

(** A row of a query result. *)
Definition Row : Type := list (string * Value).

Definition sim_queryAll (h : option string) (sql : string)
  (vals : list string) (w : World) : World * Promise (list Row) :=
  if bad_statement w sql then (w, failure "queryAll")
  else (w, Resolve [[("id", VNum 1)]]).

Definition sim_getSyncDate (h : option string) (w : World)
  : World * Promise Z :=
  if existsb (mentions "CREATE TABLE IF NOT EXISTS sync_table")
             (applied (live w))
  then (w, Resolve (round_seconds (time_ms w)))
  else (w, failure "getSyncDate").

Definition sim_Date_getTime (s : string) : option Z :=
  if String.eqb s "2024-01-01T00:00:00Z" then Some 1704067200000 else None.

(** Only the file of the test database exists. *)
Definition queries : Db.Queries World string Row :=
  {| Db.isFileExists := fun name _ => String.eqb name "testSQLite.db";
     Db.queryAll := sim_queryAll;
     Db.eTJson_getSyncDate := sim_getSyncDate;
     Db.Date_getTime := sim_Date_getTime |}.

End SimMore.

(** Closed controller wanting version 2 on a healthy world: the step to
    version 2 goes through and the backup is deleted. *)
Definition sys_stale : Sys Sim.World string :=
  Sim.start (Sim.closed_db 2) (Sim.world_v1 Sim.no_faults Sim.accepts_all).

(** * Properties of the controller *)

(** ** Predicates on events *)

Section Events.

Context {Conn : Type}.

Definition is_getVersion (ev : Event Conn) : bool :=
  match ev with EvGetVersion _ _ => true | _ => false end.

Definition is_onUpgrade (ev : Event Conn) : bool :=
  match ev with EvOnUpgrade _ _ _ _ => true | _ => false end.

Definition is_deleteFileName (ev : Event Conn) : bool :=
  match ev with EvDeleteFileName _ _ => true | _ => false end.

Definition is_restoreFileName (ev : Event Conn) : bool :=
  match ev with EvRestoreFileName _ _ _ => true | _ => false end.

(** Events of the upgrade flow: the engine run (which takes the
    snapshot), the deletion of the backup and the restore. *)
Definition upgrade_flow_event (ev : Event Conn) : bool :=
  is_onUpgrade ev || is_deleteFileName ev || is_restoreFileName ev.

Definition is_close (ev : Event Conn) : bool :=
  match ev with EvClose => true | _ => false end.

Definition is_rollback (ev : Event Conn) : bool :=
  match ev with EvRollbackTransaction _ _ => true | _ => false end.

Definition is_createTablesData (ev : Event Conn) : bool :=
  match ev with EvCreateTablesData _ _ => true | _ => false end.

(** The engine run failed. *)
Definition upgrade_failed (ev : Event Conn) : bool :=
  match ev with EvOnUpgrade _ _ _ (Reject _) => true | _ => false end.

(** The engine run succeeded. *)
Definition upgrade_succeeded (ev : Event Conn) : bool :=
  match ev with EvOnUpgrade _ _ _ (Resolve _) => true | _ => false end.

(** The deletion of the backup failed. *)
Definition discard_failed (ev : Event Conn) : bool :=
  match ev with EvDeleteFileName _ (Reject _) => true | _ => false end.

(** The schema phase failed: it rejected, or gave the sentinel -1. *)
Definition schema_phase_failed (ev : Event Conn) : bool :=
  match ev with
  | EvCreateDatabaseSchema _ (Reject _) => true
  | EvCreateDatabaseSchema _ (Resolve n) => n =? -1
  | _ => false
  end.

End Events.

(** ** Symbolic execution of a method

    [run_paths] unfolds the combinators and splits on the outcome of
    every helper call and on every test, leaving one goal per path
    through the method, with the events of that path spelled out. *)

Ltac exec :=
  cbv beta iota zeta delta
    [open close close_callback executeSQL runSQL run_callback execSet
     createSyncTable importJson exportJson
     async async_returns try_catch bind await await_method call_dropped
     when read update return_ throw ret log driver clock
     after events result this world pending
     _isDBOpen _dbName _encrypted _mode _version _pathDB _mDB _vUpgDict
     with_isDBOpen with_mDB isDBOpen negb].

Ltac split_path :=
  match goal with
  | |- context [match ?x with pair _ _ => _ end] =>
      lazymatch type of x with
      | (_ * Promise _)%type => destruct x as [? [?|?]] eqn:?
      | (_ * option _)%type => destruct x as [? [?|]] eqn:?
      end
  | |- context [if ?a >? ?b then _ else _] => destruct (Z.gtb_spec a b)
  | |- context [if ?a <? ?b then _ else _] => destruct (Z.ltb_spec a b)
  | |- context [if ?a =? ?b then _ else _] => destruct (Z.eqb_spec a b)
  | |- context [if (if ?b then _ else _) then _ else _] => destruct b eqn:?
  | |- context [if ?b then _ else _] => destruct b eqn:?
  | |- context [match ?h with Some _ => _ | None => _ end] =>
      is_var h; destruct h
  end.

Ltac run_paths := repeat (exec; split_path); exec; cbn [app].

Ltac start_run s :=
  destruct s as [[isOpen0 dbName encrypted0 mode0 version0 pathDB mDB0 dict]
                   w0 queue].

Ltac clean_eqs :=
  repeat match goal with
         | H : _ = ?x |- _ => is_var x; subst x
         | H : ?x = _ |- _ => is_var x; subst x
         | H : @eq (Event _) _ _ |- _ => first [discriminate H | injection H as ?]
         | H : @eq (Promise _) _ _ |- _ => first [discriminate H | injection H as ?]
         | H : @eq (option _) _ _ |- _ => first [discriminate H | injection H as ?]
         | H : @eq (list _) _ _ |- _ => first [discriminate H | injection H as ?]
         | H : _ /\ _ |- _ => destruct H
         | H : exists _, _ |- _ => destruct H
         | H : False |- _ => destruct H
         end.

(** Membership in an explicit list of events. *)
Ltac in_cases H :=
  simpl in H;
  repeat (destruct H as [H | H]; [try discriminate H | ]);
  try contradiction H.

Ltac pick := first [left; reflexivity | right; pick].

Ltac finish :=
  simpl; intros; clean_eqs;
  repeat match goal with
         | H : In _ _ |- _ => in_cases H; clean_eqs
         | H : _ \/ _ |- _ => in_cases H; clean_eqs
         end;
  first [lia | reflexivity | discriminate | assumption | contradiction
        | solve [repeat eexists; pick]
        | solve [eexists; split; [reflexivity | auto]]
        | solve [eexists; repeat split; intros; clean_eqs;
                 first [reflexivity | discriminate]]
        | idtac].

(** An explicit list of events cut at one of its elements. *)
Ltac split_app H :=
  lazymatch type of H with
  | [] = ?pre ++ _ :: _ => destruct pre; discriminate H
  | _ :: _ = ?pre ++ _ :: _ =>
      let e := fresh "ev" in
      let Hh := fresh "Hhead" in
      destruct pre as [| e pre]; simpl in H;
      [ injection H as Hh H; first [discriminate Hh | idtac]
      | injection H as Hh H; subst e; split_app H ]
  end.

(** As [run_paths], reading a helper call that was met before off its
    equation. *)
Ltac reuse_call :=
  match goal with
  | H : ?call = (_, _) |- context [?call] => rewrite H
  end.

Ltac run_tied := repeat (exec; first [reuse_call | split_path]); exec; cbn [app].

Section OpenFacts.

Context {W Conn : Type} (C : Collaborators W Conn).

(** The stored version is read at most once per [open]. *)
Lemma open_reads_version_at_most_once (s : Sys W Conn) :
  (length (List.filter is_getVersion (events (open C s))) <= 1)%nat.
Proof.
  start_run s. run_paths; simpl; lia.
Qed.

(** The engine runs only on a stored version that was read and is below
    the target. *)
Lemma open_upgrade_needs_version (s : Sys W Conn) d c t p :
  In (EvOnUpgrade d c t p) (events (open C s)) ->
  (exists h, In (EvGetVersion h (Resolve c)) (events (open C s))) /\
  t > c.
Proof.
  start_run s. run_paths.
  all: intros Hin; in_cases Hin; clean_eqs.
  all: split; [eexists; simpl; pick | lia].
Qed.

(** [open] never reaches its own call of [close]: the handler that makes
    it only sees failures raised before the flag is set. *)
Lemma open_never_closes (s : Sys W Conn) :
  existsb is_close (events (open C s)) = false /\
  pending (after (open C s)) = pending s.
Proof.
  start_run s. run_paths; split; reflexivity.
Qed.

(** When the restore fails, [open] rejects and leaves the flag raised. *)
Lemma open_failed_restore_stays_open (s : Sys W Conn) name prefix e :
  In (EvRestoreFileName name prefix (Reject e)) (events (open C s)) ->
  result (open C s) = Reject (mkError ("Open: " +:+ message e)) /\
  isDBOpen (after (open C s)) = true.
Proof.
  start_run s. run_paths; intros Hin; in_cases Hin; clean_eqs; split; reflexivity.
Qed.

(** C6: [open] reads the stored schema version once and enters the upgrade
    flow exactly when the configured target version is strictly greater
    than the stored one. The statement follows the helpers themselves:
    the password is changed and the file encrypted as the mode asks, the
    connection is obtained, and [getVersion] on that connection gives
    [stored] and leaves the world [w4]. When the target is not greater,
    [open] stops there: the world it leaves is [w4], so nothing ran after
    the reading (no engine run, hence no snapshot and no upgrade step, no
    deletion of the backup, no restore), and it resolves with the flag
    raised and the connection stored. When the target is greater,
    [onUpgrade] is run on [w4] for the versions [stored] to target, then
    the backup is deleted or the restore is run, each on the world the
    call before left, and the world [open] leaves is the last of these. *)
Theorem open_upgrade_iff_stale (s : Sys W Conn) (w1 w2 w3 w4 : W)
  (conn : Conn) (stored : Z) :
  let d := this s in
  let pw :=
    if String.eqb (_mode d) "newsecret" then newsecret C
    else if _encrypted d &&
            (String.eqb (_mode d) "secret" || String.eqb (_mode d) "encryption")
         then secret C else "" in
  (if String.eqb (_mode d) "newsecret"
   then changePassword C (_pathDB d) (secret C) (newsecret C) (world s)
   else (world s, Resolve tt)) = (w1, Resolve tt) ->
  (if String.eqb (_mode d) "encryption"
   then encryptDatabase C (_pathDB d) pw w1
   else (w1, Resolve tt)) = (w2, Resolve tt) ->
  openOrCreateDatabase C (_pathDB d) pw w2 = (w3, Resolve conn) ->
  getVersion C (Some conn) w3 = (w4, Resolve stored) ->
  List.filter is_getVersion (events (open C s)) =
    [EvGetVersion (Some conn) (Resolve stored)] /\
  ((exists n c t p, In (EvOnUpgrade n c t p) (events (open C s)))
     <-> _version d > stored) /\
  this (after (open C s)) = with_isDBOpen true (with_mDB (Some conn) d) /\
  (_version d <= stored ->
     world (after (open C s)) = w4 /\
     result (open C s) = Resolve tt /\
     (forall ev, In ev (events (open C s)) -> upgrade_flow_event ev = false)) /\
  (_version d > stored ->
     match onUpgrade C (Some conn) (_vUpgDict d) (_dbName d) stored
                     (_version d) w4 with
     | (w5, Resolve n) =>
         match deleteFileName C ("backup-" +:+ _dbName d) w5 with
         | (w6, Resolve u) =>
             world (after (open C s)) = w6 /\
             List.filter upgrade_flow_event (events (open C s)) =
               [EvOnUpgrade (_dbName d) stored (_version d) (Resolve n);
                EvDeleteFileName ("backup-" +:+ _dbName d) (Resolve u)]
         | (w6, Reject e) =>
             match restoreFileName C (_dbName d) "backup" w6 with
             | (w7, r) =>
                 world (after (open C s)) = w7 /\
                 List.filter upgrade_flow_event (events (open C s)) =
                   [EvOnUpgrade (_dbName d) stored (_version d) (Resolve n);
                    EvDeleteFileName ("backup-" +:+ _dbName d) (Reject e);
                    EvRestoreFileName (_dbName d) "backup" r]
             end
         end
     | (w5, Reject e) =>
         match restoreFileName C (_dbName d) "backup" w5 with
         | (w6, r) =>
             world (after (open C s)) = w6 /\
             List.filter upgrade_flow_event (events (open C s)) =
               [EvOnUpgrade (_dbName d) stored (_version d) (Reject e);
                EvRestoreFileName (_dbName d) "backup" r]
         end
     end).
Proof.
  start_run s. cbv zeta. cbn [this world _mode _encrypted _pathDB _version
                              _vUpgDict _dbName].
  destruct (String.eqb mode0 "newsecret") eqn:Enew;
    destruct (String.eqb mode0 "encryption") eqn:Eenc.
  all: intros H1 H2 H3 H4.
  all: repeat match goal with
              | H : (_, _) = (_, _) |- _ => injection H as ?; subst
              end.
  all: repeat (exec;
               first [rewrite Enew | rewrite Eenc | reuse_call | split_path]);
       exec; cbn [app].
  all: repeat match goal with a : unit |- _ => destruct a end.
  all: split; [reflexivity |].
  all: split; [split; [intros Hex; finish | intros Hgt; finish] |].
  all: split; [reflexivity |].
  all: split; [intros Hle | intros Hgt]; try lia.
  all: try (repeat split; finish).
Qed.

(** C2, amended: [restoreFileName] is called with the database name and
    the prefix [backup], and only right after a failure inside the guarded
    block, that is a failed engine run or a failed deletion of the backup;
    nothing follows it, and when it fails [open] rejects with the restore's
    message wrapped as [Open: ...]. *)
Theorem open_restore_only_after_failure (s : Sys W Conn)
  (pre post : list (Event Conn)) (name prefix : string) (r : Promise unit) :
  events (open C s) = pre ++ EvRestoreFileName name prefix r :: post ->
  (exists ev, last pre = Some ev /\
              (upgrade_failed ev = true \/ discard_failed ev = true)) /\
  name = _dbName (this s) /\ prefix = "backup" /\ post = [] /\
  (forall e, r = Reject e ->
     result (open C s) = Reject (mkError ("Open: " +:+ message e))).
Proof.
  start_run s. run_paths.
  all: intros Hcut; split_app Hcut; clean_eqs.
  all: repeat split; finish.
Qed.

(** C3, amended: the backup is deleted, under the name [backup-<dbName>],
    only right after a successful engine run. When the deletion succeeds
    [open] resolves. When it fails, its error is not passed on, but
    [restoreFileName] is called; [open] resolves when that restore
    succeeds and rejects with the restore's message when it fails. *)
Theorem open_discard_only_after_upgrade (s : Sys W Conn)
  (pre post : list (Event Conn)) (name : string) (r : Promise unit) :
  events (open C s) = pre ++ EvDeleteFileName name r :: post ->
  (exists ev, last pre = Some ev /\ upgrade_succeeded ev = true) /\
  name = "backup-" +:+ _dbName (this s) /\
  (r = Resolve tt -> post = [] /\ result (open C s) = Resolve tt) /\
  (forall e, r = Reject e ->
     exists r', post = [EvRestoreFileName (_dbName (this s)) "backup" r'] /\
       (r' = Resolve tt -> result (open C s) = Resolve tt) /\
       (forall e', r' = Reject e' ->
          result (open C s) = Reject (mkError ("Open: " +:+ message e')))).
Proof.
  start_run s. run_paths.
  all: intros Hcut; split_app Hcut; clean_eqs.
  all: repeat split; finish.
Qed.

End OpenFacts.

(** ** [String.prototype.slice] *)




(** [s.slice(0, -9)] keeps all but the last nine characters. *)
Lemma slice_drop_last_9 (s : string) :
  slice s 0 (-9) = String.substring 0 (String.length s - 9) s.
Proof.
  unfold slice, slice_index.
  change (0 <? 0) with false. change (-9 <? 0) with true. cbv iota.
  f_equal; lia.
Qed.

Section MethodFacts.

Context {W Conn : Type} (C : Collaborators W Conn).

(** *** [close] *)

(** [close] settles by resolving, whatever the driver does. *)
Lemma close_always_resolves (s : Sys W Conn) :
  result (close C s) = Resolve tt.
Proof.
  start_run s. run_paths; reflexivity.
Qed.

(** On a closed controller, or one without connection, [close] touches
    nothing. *)
Lemma close_noop_when_closed (s : Sys W Conn) :
  _isDBOpen (this s) = false \/ _mDB (this s) = None ->
  after (close C s) = s /\ events (close C s) = [EvClose].
Proof.
  start_run s. simpl. intros [-> | ->]; run_paths; split; reflexivity.
Qed.

(** The rejection built in the callback of [_mDB.close] goes to the
    driver; the flag stays as it was. *)
Lemma close_callback_failure (s : Sys W Conn) (e : Error) :
  result (close_callback (Some e) s) =
    Reject (mkError ("Close: Failed in closing: " +:+ _dbName (this s) +:+
                     "  " +:+ message e)) /\
  after (close_callback (Some e) s) = s.
Proof.
  start_run s. run_paths; split; reflexivity.
Qed.

(** *** [executeSQL] *)

(** [executeSQL] rejects when its body fails; the rollback is skipped
    when the failure is the negative sentinel of [execute]. *)
Lemma executeSQL_failure_rejects (s : Sys W Conn) (sql : string) (ev : Event Conn) :
  In ev (events (executeSQL C sql s)) ->
  match ev with
  | EvBeginTransaction _ (Reject _)
  | EvExecute _ (Reject _)
  | EvCommitTransaction _ (Reject _) =>
      (exists e, result (executeSQL C sql s) = Reject e) /\
      existsb is_rollback (events (executeSQL C sql s)) = true
  | EvExecute _ (Resolve n) =>
      n < 0 ->
      result (executeSQL C sql s) = Reject (mkError "ExecuteSQL: changes < 0") /\
      existsb is_rollback (events (executeSQL C sql s)) = false
  | _ => True
  end.
Proof.
  start_run s. run_paths.
  all: intros Hin; in_cases Hin; clean_eqs; try exact I.
  all: try (intros; lia); try (split; [eexists |]; reflexivity).
  all: intros; split; reflexivity.
Qed.

(** *** [execSet] *)

(** When the body of [execSet] fails and the rollback succeeds, the
    promise resolves with [undefined]. *)
Lemma execSet_swallows_failure (s : Sys W Conn) (set : list SetItem)
  (e : Error) (b : bool) :
  In (EvExecuteSet set (Reject e)) (events (execSet C set s)) ->
  In (EvRollbackTransaction b (Resolve tt)) (events (execSet C set s)) ->
  result (execSet C set s) = Resolve None.
Proof.
  start_run s. run_paths.
  all: intros Hin Hrb; in_cases Hin; clean_eqs; in_cases Hrb; clean_eqs.
  all: reflexivity.
Qed.

(** *** [runSQL] *)

(** Once the statement has been handed to the driver, [runSQL] has
    nothing left to do: it resolves with [undefined] before the callback
    runs. *)
Lemma runSQL_resolves_before_callback (s : Sys W Conn) (stmt : string)
  (vals : list Value) (err : option Error) :
  In (EvDriverRun stmt vals err) (events (runSQL C stmt vals s)) ->
  result (runSQL C stmt vals s) = Resolve None /\
  exists initChanges,
    pending (after (runSQL C stmt vals s)) = pending s ++ [CbRun err initChanges].
Proof.
  start_run s. run_paths.
  all: intros Hin; in_cases Hin; clean_eqs.
  all: split; [reflexivity | eexists; reflexivity].
Qed.

(** The callback of [_mDB.run] on a driver error: roll back, then build
    a rejection, which goes to the driver. *)
Lemma run_callback_failure (s : Sys W Conn) (e : Error) (initChanges : Z) :
  exists e', result (run_callback C (Some e) initChanges s) = Reject e'.
Proof.
  start_run s. run_paths; eexists; reflexivity.
Qed.

(** *** [createSyncTable] *)

(** When [sync_table] is already there, [createSyncTable] resolves with
    the initial value of [changes]. *)
Lemma createSyncTable_existing (s : Sys W Conn) (w : W) :
  _isDBOpen (this s) = true ->
  isTableExists C (_mDB (this s)) true "sync_table" (world s) = (w, Resolve true) ->
  result (createSyncTable C s) = Resolve (-1) /\
  events (createSyncTable C s) = [EvIsTableExists true "sync_table" (Resolve true)].
Proof.
  start_run s. simpl. intros -> Hex. exec. rewrite Hex. exec.
  split; reflexivity.
Qed.

(** *** [importJson] *)

(** C7: [importJson] is two-phase. On an open controller the schema
    phase runs first. When it rejects, or gives the sentinel -1, the row
    phase is not run: the world is the one the schema phase left, and the
    caller is told of the failure, by a rejection [ImportJson: ...] or by
    the sentinel -1. When it gives another count, the row phase runs on
    the world the schema phase left, and the import ends as the row phase
    does: resolved with its count, or rejected with [ImportJson: ...]. *)
Theorem importJson_two_phase (s : Sys W Conn) (json : JsonSQLite) :
  _isDBOpen (this s) = true ->
  match createDatabaseSchema C (_mDB (this s)) json (world s) with
  | (w1, Reject e) =>
      importJson C json s =
        mkRun (mkSys (this s) w1 (pending s))
              [EvCreateDatabaseSchema json (Reject e)]
              (Reject (mkError ("ImportJson: " +:+ message e)))
  | (w1, Resolve n) =>
      if n =? -1 then
        importJson C json s =
          mkRun (mkSys (this s) w1 (pending s))
                [EvCreateDatabaseSchema json (Resolve n)]
                (Resolve (-1))
      else
        match createTablesData C (_mDB (this s)) json w1 with
        | (w2, Resolve m) =>
            importJson C json s =
              mkRun (mkSys (this s) w2 (pending s))
                    [EvCreateDatabaseSchema json (Resolve n);
                     EvCreateTablesData json (Resolve m)]
                    (Resolve m)
        | (w2, Reject e) =>
            importJson C json s =
              mkRun (mkSys (this s) w2 (pending s))
                    [EvCreateDatabaseSchema json (Resolve n);
                     EvCreateTablesData json (Reject e)]
                    (Reject (mkError ("ImportJson: " +:+ message e)))
        end
  end.
Proof.
  start_run s. cbn [this world pending _isDBOpen _mDB]. intros ->.
  run_tied; try subst; reflexivity.
Qed.

(** *** [exportJson] *)


End MethodFacts.

(** * The controller in the simulated world *)

Import Sim.

(** The upgrade steps only write to the database file. *)
Lemma apply_steps_frame (steps : list capSQLiteVersionUpgrade) (w w' : World)
  (p : Promise unit) :
  apply_steps steps w = (w', p) -> w' = set_live (live w') w.
Proof.
  revert w. induction steps as [| step rest IH]; simpl; intros w H.
  - injection H as <- _. now destruct w.
  - unfold apply_step in H.
    destruct (existsb (bad_statement w) (upg_statements step)).
    + injection H as <- _. now destruct w.
    + apply IH in H. rewrite H. reflexivity.
Qed.

Ltac exec_sim :=
  exec;
  cbv beta iota zeta delta
    [collaborators secret newsecret getFilePath deleteFileName restoreFileName
     encryptDatabase changePassword openOrCreateDatabase getVersion
     beginTransaction commitTransaction rollbackTransaction execute
     executeSet dbChanges getLastId onUpgrade isTableExists isJsonSQLite
     createDatabaseSchema createTablesData createExportObject
     driver_close driver_run now_ms
     plain failure snapshot sim_onUpgrade sim_restoreFileName
     sim_deleteFileName sim_execute sim_isTableExists sim_driver
     set_live set_backup
     live backup faults bad_statement negative_changes schema_sentinel time_ms].

Ltac split_steps :=
  match goal with
  | |- context [match apply_steps ?l ?w with _ => _ end] =>
      let w2 := fresh "w" in
      let H := fresh "Hsteps" in
      destruct (apply_steps l w) as [w2 [[] | ?]] eqn:H;
      apply apply_steps_frame in H;
      destruct w2; cbv [set_live live backup faults bad_statement
                        negative_changes schema_sentinel time_ms] in H;
      injection H as ? ? ? ? ? ?; subst
  end.

Ltac split_sim :=
  match goal with
  | |- context [if ?f ?op then _ else _] => is_var f; destruct (f op) eqn:?
  | |- context [if String.eqb ?a ?b then _ else _] =>
      destruct (String.eqb a b) eqn:?
  | |- context [if String.prefix ?a ?b then _ else _] =>
      destruct (String.prefix a b) eqn:?
  | |- context [if ?a >? ?b then _ else _] => destruct (Z.gtb_spec a b)
  | |- context [match ?b with Some _ => _ | None => _ end] =>
      is_var b; destruct b
  end.

Ltac run_sim :=
  repeat (exec_sim; first [split_steps | split_sim]); exec_sim; cbn [app].

(** C1, amended (in the simulated world): when the snapshot was taken and
    an upgrade step fails, [restoreFileName] is the last call of [open].
    When that restore succeeds, the database file holds what it held
    before the call and [open] resolves, with the flag raised: the failure
    of the step is not passed to the caller. [open] rejects only when the
    restore itself fails. *)
Theorem sim_open_failed_step_restored (d : Database string) (w : World)
  (q : list Callback) (cur : Z) (e : Error) :
  faults w OpSnapshot = false ->
  In (EvOnUpgrade (_dbName d) cur (_version d) (Reject e))
     (events (open collaborators (mkSys d w q))) ->
  exists r,
    last (events (open collaborators (mkSys d w q))) =
      Some (EvRestoreFileName (_dbName d) "backup" r) /\
    (r = Resolve tt ->
       live (world (after (open collaborators (mkSys d w q)))) = live w /\
       result (open collaborators (mkSys d w q)) = Resolve tt /\
       isDBOpen (after (open collaborators (mkSys d w q))) = true) /\
    (forall e', r = Reject e' ->
       result (open collaborators (mkSys d w q)) =
         Reject (mkError ("Open: " +:+ message e'))).
Proof.
  destruct d as [isOpen0 dbName encrypted0 mode0 version0 pathDB mDB0 dict].
  destruct w as [live0 backup0 f bad neg sen t].
  cbn [faults _dbName _version]. intros Hsnap. revert Hsnap.
  run_sim.
  all: intros Hsnap Hin; try discriminate Hsnap; in_cases Hin; clean_eqs.
  all: eexists; split; [reflexivity |].
  all: split; intros; clean_eqs; repeat split; reflexivity.
Qed.

(** ** Runs on explicit inputs *)

(** C1, as stated, fails. First run: the step to version 3 fails, the
    restore succeeds, and [open] resolves. Second run: the restore fails
    too, and the database file is left with the step to version 2
    applied. *)
Lemma open_resolves_after_failed_step :
  (existsb upgrade_failed (events (open collaborators sys_step_fails)) = true /\
   result (open collaborators sys_step_fails) = Resolve tt) /\
  (existsb upgrade_failed
     (events (open collaborators sys_step_and_restore_fail)) = true /\
   live (world (after (open collaborators sys_step_and_restore_fail)))
     <> live (world sys_step_and_restore_fail)).
Proof.
  repeat split; try (vm_compute; reflexivity).
  vm_compute. intros H. discriminate H.
Qed.

(** The amended C1 at [sys_step_fails]. *)
Lemma sim_open_failed_step_restored_witness :
  faults (world_v1 no_faults rejects_age) OpSnapshot = false /\
  In (EvOnUpgrade "testSQLite.db" 1 3 (Reject (mkError "upgrade step failed")))
     (events (open collaborators sys_step_fails)) /\
  exists r,
    last (events (open collaborators sys_step_fails)) =
      Some (EvRestoreFileName "testSQLite.db" "backup" r) /\
    (r = Resolve tt ->
       live (world (after (open collaborators sys_step_fails))) = content_v1 /\
       result (open collaborators sys_step_fails) = Resolve tt /\
       isDBOpen (after (open collaborators sys_step_fails)) = true) /\
    (forall e', r = Reject e' ->
       result (open collaborators sys_step_fails) =
         Reject (mkError ("Open: " +:+ message e'))).
Proof.
  assert (Hsnap : faults (world_v1 no_faults rejects_age) OpSnapshot = false)
    by reflexivity.
  assert (Hin : In (EvOnUpgrade "testSQLite.db" 1 3
                      (Reject (mkError "upgrade step failed")))
                   (events (open collaborators sys_step_fails)))
    by (vm_compute; tauto).
  split; [exact Hsnap |]. split; [exact Hin |].
  exact (sim_open_failed_step_restored (closed_db 3)
           (world_v1 no_faults rejects_age) [] 1
           (mkError "upgrade step failed") Hsnap Hin).
Defined.

(** C2, as stated, fails: the upgrade succeeds, the deletion of the
    backup fails, and [restoreFileName] is called although no engine run
    has failed. *)
Lemma open_restores_after_successful_upgrade :
  events (open collaborators sys_discard_fails) =
    [EvOpenOrCreateDatabase "Databases/testSQLite.db" ""
       (Resolve "Databases/testSQLite.db");
     EvGetVersion (Some "Databases/testSQLite.db") (Resolve 1);
     EvOnUpgrade "testSQLite.db" 1 2 (Resolve 0);
     EvDeleteFileName "backup-testSQLite.db"
       (Reject (mkError "deleteFileName failed"));
     EvRestoreFileName "testSQLite.db" "backup" (Resolve tt)] /\
  existsb upgrade_failed (events (open collaborators sys_discard_fails)) = false.
Proof.
  split; vm_compute; reflexivity.
Qed.

(** The amended C2 at [sys_step_and_restore_fail]. *)
Lemma open_restore_only_after_failure_witness :
  events (open collaborators sys_step_and_restore_fail) =
    [EvOpenOrCreateDatabase "Databases/testSQLite.db" ""
       (Resolve "Databases/testSQLite.db");
     EvGetVersion (Some "Databases/testSQLite.db") (Resolve 1);
     EvOnUpgrade "testSQLite.db" 1 3 (Reject (mkError "upgrade step failed"))]
    ++ EvRestoreFileName "testSQLite.db" "backup"
         (Reject (mkError "restoreFileName failed")) :: [] /\
  result (open collaborators sys_step_and_restore_fail) =
    Reject (mkError "Open: restoreFileName failed").
Proof.
  assert (Hcut :
    events (open collaborators sys_step_and_restore_fail) =
      [EvOpenOrCreateDatabase "Databases/testSQLite.db" ""
         (Resolve "Databases/testSQLite.db");
       EvGetVersion (Some "Databases/testSQLite.db") (Resolve 1);
       EvOnUpgrade "testSQLite.db" 1 3 (Reject (mkError "upgrade step failed"))]
      ++ EvRestoreFileName "testSQLite.db" "backup"
           (Reject (mkError "restoreFileName failed")) :: [])
    by (vm_compute; reflexivity).
  split; [exact Hcut |].
  destruct (open_restore_only_after_failure collaborators
              sys_step_and_restore_fail _ _ _ _ _ Hcut)
    as (_ & _ & _ & _ & Hrej).
  exact (Hrej _ eq_refl).
Defined.

(** C3, as stated, fails. First run: the deletion of the backup fails
    after a successful upgrade to version 2; the restore is called and
    the database file is back at version 1. Second run: the restore fails
    as well and [open] rejects. *)
Lemma open_discard_failure_undoes_upgrade :
  (existsb discard_failed (events (open collaborators sys_discard_fails)) = true /\
   existsb is_restoreFileName
     (events (open collaborators sys_discard_fails)) = true /\
   live (world (after (open collaborators sys_discard_fails))) = content_v1) /\
  result (open collaborators sys_discard_and_restore_fail) =
    Reject (mkError "Open: restoreFileName failed").
Proof.
  repeat split; vm_compute; reflexivity.
Qed.

(** The amended C3 at [sys_discard_fails]. *)
Lemma open_discard_only_after_upgrade_witness :
  events (open collaborators sys_discard_fails) =
    [EvOpenOrCreateDatabase "Databases/testSQLite.db" ""
       (Resolve "Databases/testSQLite.db");
     EvGetVersion (Some "Databases/testSQLite.db") (Resolve 1);
     EvOnUpgrade "testSQLite.db" 1 2 (Resolve 0)]
    ++ EvDeleteFileName "backup-testSQLite.db"
         (Reject (mkError "deleteFileName failed"))
       :: [EvRestoreFileName "testSQLite.db" "backup" (Resolve tt)] /\
  (exists ev,
     last [EvOpenOrCreateDatabase "Databases/testSQLite.db" ""
             (Resolve "Databases/testSQLite.db");
           EvGetVersion (Some "Databases/testSQLite.db") (Resolve 1);
           EvOnUpgrade "testSQLite.db" 1 2 (Resolve 0)] = Some ev /\
     upgrade_succeeded ev = true).
Proof.
  assert (Hcut :
    events (open collaborators sys_discard_fails) =
      [EvOpenOrCreateDatabase "Databases/testSQLite.db" ""
         (Resolve "Databases/testSQLite.db");
       EvGetVersion (Some "Databases/testSQLite.db") (Resolve 1);
       EvOnUpgrade "testSQLite.db" 1 2 (Resolve 0)]
      ++ EvDeleteFileName "backup-testSQLite.db"
           (Reject (mkError "deleteFileName failed"))
         :: [EvRestoreFileName "testSQLite.db" "backup" (Resolve tt)])
    by (vm_compute; reflexivity).
  split; [exact Hcut |].
  exact (proj1 (open_discard_only_after_upgrade collaborators
                  sys_discard_fails _ _ _ _ Hcut)).
Defined.

(** C4 on explicit inputs. [execSet]: the body fails, the rollback
    succeeds, the promise resolves with [undefined]. [runSQL]: the promise
    resolves with [undefined] as soon as the statement is handed to the
    driver; the rejection is built later in the callback, for the driver.
    [executeSQL]: on the negative sentinel it rejects without rolling
    back. *)
Theorem transactional_primitives_on_failure :
  (events (execSet collaborators set_users (sys_open_failing OpExecuteSet)) =
     [EvDbChanges (Resolve 1);
      EvBeginTransaction true (Resolve tt);
      EvExecuteSet set_users (Reject (mkError "executeSet failed"));
      EvRollbackTransaction true (Resolve tt)] /\
   result (execSet collaborators set_users (sys_open_failing OpExecuteSet)) =
     Resolve None) /\
  (result (runSQL collaborators "INSERT INTO users (id) VALUES (?);" [VNum 2]
             (sys_open_failing OpDriverRun)) = Resolve None /\
   pending (after (runSQL collaborators "INSERT INTO users (id) VALUES (?);"
                     [VNum 2] (sys_open_failing OpDriverRun))) =
     [CbRun (Some (mkError "run failed")) 1] /\
   result (run_callback collaborators (Some (mkError "run failed")) 1
             (after (runSQL collaborators "INSERT INTO users (id) VALUES (?);"
                       [VNum 2] (sys_open_failing OpDriverRun)))) =
     Reject (mkError "RunSQL: run failed")) /\
  (result (executeSQL collaborators "DELETE FROM users;"
             sys_open_negative_changes) =
     Reject (mkError "ExecuteSQL: changes < 0") /\
   existsb is_rollback
     (events (executeSQL collaborators "DELETE FROM users;"
                sys_open_negative_changes)) = false).
Proof.
  repeat split; vm_compute; reflexivity.
Qed.

(** C5 on explicit inputs. First run: a step and the restore fail;
    [open] rejects, the flag stays raised, [close] is not called and no
    callback is queued. Second run: the connection is obtained, reading
    the version fails; [open] rejects with the connection stored and
    [close] is not called. *)
Theorem open_rejects_without_cleanup :
  (result (open collaborators sys_step_and_restore_fail) =
     Reject (mkError "Open: restoreFileName failed") /\
   isDBOpen (after (open collaborators sys_step_and_restore_fail)) = true /\
   existsb is_close (events (open collaborators sys_step_and_restore_fail)) = false /\
   pending (after (open collaborators sys_step_and_restore_fail)) = []) /\
  (result (open collaborators sys_getVersion_fails) =
     Reject (mkError "Open: getVersion failed") /\
   _mDB (this (after (open collaborators sys_getVersion_fails))) =
     Some "Databases/testSQLite.db" /\
   existsb is_close (events (open collaborators sys_getVersion_fails)) = false).
Proof.
  repeat split; vm_compute; reflexivity.
Qed.

(** C6 at [sys_up_to_date] (stored version 1, target 1: nothing runs after
    the reading) and at [sys_stale] (stored version 1, target 2: the
    engine runs, then the backup is deleted). *)
Lemma open_upgrade_iff_stale_witness :
  (getVersion collaborators (Some "Databases/testSQLite.db")
     (world sys_up_to_date) = (world sys_up_to_date, Resolve 1) /\
   world (after (open collaborators sys_up_to_date)) = world sys_up_to_date /\
   result (open collaborators sys_up_to_date) = Resolve tt) /\
  (getVersion collaborators (Some "Databases/testSQLite.db")
     (world sys_stale) = (world sys_stale, Resolve 1) /\
   List.filter upgrade_flow_event (events (open collaborators sys_stale)) =
     [EvOnUpgrade "testSQLite.db" 1 2 (Resolve 0);
      EvDeleteFileName "backup-testSQLite.db" (Resolve tt)] /\
   user_version (live (world (after (open collaborators sys_stale)))) = 2).
Proof.
  split.
  - split; [reflexivity |].
    destruct (open_upgrade_iff_stale collaborators sys_up_to_date
                (world sys_up_to_date) (world sys_up_to_date)
                (world sys_up_to_date) (world sys_up_to_date)
                "Databases/testSQLite.db" 1
                eq_refl eq_refl eq_refl eq_refl)
      as (_ & _ & _ & Hfresh & _).
    destruct (Hfresh ltac:(simpl; lia)) as (Hw & Hr & _).
    split; [exact Hw | exact Hr].
  - split; [reflexivity |].
    destruct (open_upgrade_iff_stale collaborators sys_stale
                (world sys_stale) (world sys_stale)
                (world sys_stale) (world sys_stale)
                "Databases/testSQLite.db" 1
                eq_refl eq_refl eq_refl eq_refl)
      as (_ & _ & _ & _ & Hstale).
    destruct (Hstale ltac:(simpl; lia)) as (Hw & Hflow).
    split; [exact Hflow |].
    rewrite Hw. reflexivity.
Defined.

(** C7 at three runs: the schema phase gives the sentinel -1; both
    phases succeed; the row phase fails. *)
Lemma importJson_two_phase_witness :
  (_isDBOpen (this sys_open) = true /\
   _isDBOpen (this sys_open_schema_sentinel) = true) /\
  importJson collaborators json_users sys_open_schema_sentinel =
    mkRun sys_open_schema_sentinel
          [EvCreateDatabaseSchema json_users (Resolve (-1))]
          (Resolve (-1)) /\
  importJson collaborators json_users sys_open =
    mkRun sys_open
          [EvCreateDatabaseSchema json_users (Resolve 1);
           EvCreateTablesData json_users (Resolve 1)]
          (Resolve 1) /\
  importJson collaborators json_users (sys_open_failing OpCreateTablesData) =
    mkRun (sys_open_failing OpCreateTablesData)
          [EvCreateDatabaseSchema json_users (Resolve 1);
           EvCreateTablesData json_users
             (Reject (mkError "createTablesData failed"))]
          (Reject (mkError "ImportJson: createTablesData failed")).
Proof.
  split; [split; reflexivity |].
  split; [| split].
  - exact (importJson_two_phase collaborators sys_open_schema_sentinel
             json_users eq_refl).
  - exact (importJson_two_phase collaborators sys_open json_users eq_refl).
  - exact (importJson_two_phase collaborators
             (sys_open_failing OpCreateTablesData) json_users eq_refl).
Defined.

(** C8 on explicit inputs: the first call creates the table and resolves
    with 1; the second finds the table and resolves with -1, having
    called nothing but [isTableExists]. *)
Theorem createSyncTable_twice :
  result (createSyncTable collaborators sys_open) = Resolve 1 /\
  result (createSyncTable collaborators
            (after (createSyncTable collaborators sys_open))) = Resolve (-1) /\
  events (createSyncTable collaborators
            (after (createSyncTable collaborators sys_open))) =
    [EvIsTableExists true "sync_table" (Resolve true)].
Proof.
  repeat split; vm_compute; reflexivity.
Qed.

(** C9 on explicit inputs: the driver fails to close; [close] resolves,
    the rejection built in the callback goes to the driver, and the flag
    is still raised once the callback has run. *)
Theorem close_hides_driver_failure :
  result (close collaborators (sys_open_failing OpDriverClose)) = Resolve tt /\
  pending (after (close collaborators (sys_open_failing OpDriverClose))) =
    [CbClose (Some (mkError "close failed"))] /\
  result (close_callback (Some (mkError "close failed"))
            (after (close collaborators (sys_open_failing OpDriverClose)))) =
    Reject (mkError "Close: Failed in closing: testSQLite.db  close failed") /\
  isDBOpen (fst (drain collaborators
                   (after (close collaborators (sys_open_failing OpDriverClose)))))
    = true.
Proof.
  repeat split; vm_compute; reflexivity.
Qed.

(** * Further properties *)

Ltac exec_more :=
  cbv beta iota zeta delta
    [Db.deleteDB Db.isTableExists Db.selectSQL Db.setSyncDate Db.getSyncDate
     Db.await_quiet Db.look];
  exec.

Ltac run_more := repeat (exec_more; split_path); exec_more; cbn [app].

Lemma string_app_assoc (a b c : string) : (a +:+ b) +:+ c = a +:+ b +:+ c.
Proof.
  induction a as [| x a IH]; [reflexivity |].
  change (String x ((a +:+ b) +:+ c) = String x (a +:+ b +:+ c)).
  now rewrite IH.
Qed.

Section GuardFacts.

Context {W Conn Row : Type} (C : Collaborators W Conn)
        (Q : Db.Queries W Conn Row).

(** X1: on a closed controller the SQL methods reject at once, with a
    message naming the method, without calling a helper and without
    touching the controller or the world. *)
Theorem closed_sql_methods_reject (s : Sys W Conn) (sql : string)
  (vals : list Value) (svals : list string) (set : list SetItem) :
  _isDBOpen (this s) = false ->
  executeSQL C sql s =
    mkRun s [] (Reject (mkError ("ExecuteSQL: Database " +:+ _dbName (this s)
                                 +:+ " not opened"))) /\
  Db.selectSQL Q sql svals s =
    mkRun s [] (Reject (mkError ("SelectSQL: Database " +:+ _dbName (this s)
                                 +:+ " not opened"))) /\
  runSQL C sql vals s =
    mkRun s [] (Reject (mkError ("RunSQL: Database " +:+ _dbName (this s)
                                 +:+ " not opened"))) /\
  execSet C set s =
    mkRun s [] (Reject (mkError ("ExecSet: Database " +:+ _dbName (this s)
                                 +:+ " not opened"))).
Proof.
  start_run s. simpl. intros ->.
  repeat split; exec_more; rewrite ?string_app_assoc; reflexivity.
Qed.

(** X2: on a closed controller [isTableExists], [createSyncTable],
    [importJson] and [exportJson] reject at once, without calling a
    helper and without touching the controller or the world; the first
    two name the database, the last two say that it is closed. *)
Theorem closed_table_and_json_methods_reject (s : Sys W Conn)
  (tableName md : string) (json : JsonSQLite) :
  _isDBOpen (this s) = false ->
  Db.isTableExists C tableName s =
    mkRun s [] (Reject (mkError ("isTableExists: Database "
                                 +:+ _dbName (this s) +:+ " not opened"))) /\
  createSyncTable C s =
    mkRun s [] (Reject (mkError ("CreateSyncTable: Database "
                                 +:+ _dbName (this s) +:+ " not opened"))) /\
  importJson C json s =
    mkRun s [] (Reject (mkError "ImportJson: database is closed")) /\
  exportJson C md s =
    mkRun s [] (Reject (mkError "ExportJson: database is closed")).
Proof.
  start_run s. simpl. intros ->.
  repeat split; exec_more; rewrite ?string_app_assoc; reflexivity.
Qed.

End GuardFacts.

Section TransactionFacts.

Context {W Conn Row : Type} (C : Collaborators W Conn)
        (Q : Db.Queries W Conn Row).

(** X3: [executeSQL] has three kinds of outcome. It resolves only with a
    non-negative change count, after begin, execute and commit have all
    succeeded. It rejects without any call on a closed controller, and
    without rollback on the negative sentinel. Otherwise the failed call
    is followed by the rollback, and the message carries the cause, and
    the rollback's own cause when the rollback fails too. *)
Theorem executeSQL_outcomes (s : Sys W Conn) (sql : string) :
  match result (executeSQL C sql s) with
  | Resolve n =>
      0 <= n /\
      events (executeSQL C sql s) =
        [EvBeginTransaction true (Resolve tt);
         EvExecute sql (Resolve n);
         EvCommitTransaction true (Resolve tt)]
  | Reject e =>
      (_isDBOpen (this s) = false /\ events (executeSQL C sql s) = []) \/
      (exists n, n < 0 /\
         events (executeSQL C sql s) =
           [EvBeginTransaction true (Resolve tt); EvExecute sql (Resolve n)] /\
         e = mkError "ExecuteSQL: changes < 0") \/
      (exists ev cause r rest,
         rev (events (executeSQL C sql s)) =
           EvRollbackTransaction true r :: ev :: rest /\
         (ev = EvBeginTransaction true (Reject cause) \/
          ev = EvExecute sql (Reject cause) \/
          ev = EvCommitTransaction true (Reject cause)) /\
         message e =
           match r with
           | Resolve _ => "ExecuteSQL: ExecuteSQL: " +:+ message cause
           | Reject e' =>
               "ExecuteSQL: ExecuteSQL: " +:+ message cause +:+ " : "
               +:+ message e'
           end)
  end.
Proof.
  start_run s. run_paths.
  all: repeat match goal with a : unit |- _ => destruct a end.
  all: try (split; [lia | reflexivity]).
  all: try (left; split; reflexivity).
  all: try (right; left; eexists; split; [eassumption | split; reflexivity]).
  all: right; right; do 4 eexists; cbn [rev app];
       (split; [reflexivity |]);
       (split; [first [left; reflexivity | right; left; reflexivity
                      | right; right; reflexivity] |]);
       cbn [message]; rewrite ?string_app_assoc; reflexivity.
Qed.

(** X4: the outcomes of [execSet]. It resolves with an object only after
    the set was executed and committed; [lastId] is what [executeSet]
    gave and [changes] is the change counter after the commit minus the
    counter before the transaction. It resolves with [undefined] only
    after a failed body and a successful rollback. It rejects on a closed
    controller; when reading the counter or beginning fails, with no
    rollback and nothing executed; and when both the body and the
    rollback fail, with both causes in the message. *)
Theorem execSet_outcomes (s : Sys W Conn) (set : list SetItem) :
  match result (execSet C set s) with
  | Resolve (Some r) =>
      exists before after_,
        events (execSet C set s) =
          [EvDbChanges (Resolve before);
           EvBeginTransaction true (Resolve tt);
           EvExecuteSet set (Resolve (lastId r));
           EvCommitTransaction true (Resolve tt);
           EvDbChanges (Resolve after_)] /\
        changes r = after_ - before
  | Resolve None =>
      exists ev cause rest,
        rev (events (execSet C set s)) =
          EvRollbackTransaction true (Resolve tt) :: ev :: rest /\
        (ev = EvExecuteSet set (Reject cause) \/
         ev = EvCommitTransaction true (Reject cause) \/
         ev = EvDbChanges (Reject cause))
  | Reject e =>
      (_isDBOpen (this s) = false /\ events (execSet C set s) = []) \/
      (exists cause,
         (events (execSet C set s) = [EvDbChanges (Reject cause)] \/
          exists before,
            events (execSet C set s) =
              [EvDbChanges (Resolve before);
               EvBeginTransaction true (Reject cause)]) /\
         e = mkError ("ExecSet: " +:+ message cause)) \/
      (exists ev cause e' rest,
         rev (events (execSet C set s)) =
           EvRollbackTransaction true (Reject e') :: ev :: rest /\
         (ev = EvExecuteSet set (Reject cause) \/
          ev = EvCommitTransaction true (Reject cause) \/
          ev = EvDbChanges (Reject cause)) /\
         e = mkError ("ExecSet: " +:+ message cause +:+ ": " +:+ message e'))
  end.
Proof.
  start_run s. run_paths.
  all: repeat match goal with a : unit |- _ => destruct a end.
  all: try (do 2 eexists; split; reflexivity).
  all: try (left; split; reflexivity).
  all: try (right; left; eexists; split;
            [first [left; reflexivity | right; eexists; reflexivity]
            | reflexivity]).
  all: try (right; right; do 4 eexists; cbn [rev app];
            (split; [reflexivity |]);
            (split; [first [left; reflexivity | right; left; reflexivity
                           | right; right; reflexivity] |]);
            reflexivity).
  all: do 3 eexists; cbn [rev app]; split; [reflexivity |];
       first [left; reflexivity | right; left; reflexivity
             | right; right; reflexivity].
Qed.

End TransactionFacts.

Section SyncDateFacts.

Context {W Conn Row : Type} (C : Collaborators W Conn)
        (Q : Db.Queries W Conn Row).

(** X5: [setSyncDate] and [getSyncDate] never reject: every failure comes
    back as a resolved object. [setSyncDate] reports [result: true],
    without message, exactly when the UPDATE statement it builds went
    through [executeSQL]. [getSyncDate] reports a positive date without
    message, or the date 0 with a message. *)
Theorem sync_date_methods_never_reject (s : Sys W Conn) (syncDate : string) :
  (exists v,
     result (Db.setSyncDate C Q syncDate s) = Resolve v /\
     (Db.sd_result v = true <->
        exists n, result (executeSQL C (Db.setSyncDate_stmt Q syncDate) s)
                  = Resolve n) /\
     (Db.sd_result v = true <-> Db.sd_message v = None)) /\
  (exists v,
     result (Db.getSyncDate Q s) = Resolve v /\
     0 <= Db.gd_syncDate v /\
     (0 < Db.gd_syncDate v <-> Db.gd_message v = None)).
Proof.
  start_run s. split.
  - run_more.
    all: eexists; split; [reflexivity |]; cbn [Db.sd_result Db.sd_message].
    all: split; split; intros Hx; try discriminate Hx; try reflexivity.
    all: try (match type of Hx with ex _ => destruct Hx as [? Hn] end;
              discriminate Hn).
    all: try (eexists; reflexivity).
    all: lia.
  - run_more.
    all: eexists; split; [reflexivity |]; cbn [Db.gd_syncDate Db.gd_message].
    all: split; [lia |]; split; intros Hx; try discriminate Hx;
         try reflexivity; lia.
Qed.

(** X6: [setSyncDate] does not check the date it is given. On an open
    controller whose transaction begins, the statement handed to
    [execute] sets [sync_date] to the date in whole seconds, rounded to
    the nearest, or to [NaN] when the text is not a date. *)
Theorem setSyncDate_sends_statement (s : Sys W Conn) (syncDate : string)
  (w : W) :
  _isDBOpen (this s) = true ->
  beginTransaction C (_mDB (this s)) true (world s) = (w, Resolve tt) ->
  exists r,
    In (EvExecute
          match Db.Date_getTime Q syncDate with
          | Some ms =>
              "UPDATE sync_table SET sync_date = " +:+ pretty (round_seconds ms)
              +:+ " WHERE id = 1;"
          | None => "UPDATE sync_table SET sync_date = NaN WHERE id = 1;"
          end r)
       (events (Db.setSyncDate C Q syncDate s)).
Proof.
  start_run s. simpl. intros -> Hbegin.
  exec_more. unfold Db.setSyncDate_stmt, Db.sDate_text.
  destruct (Db.Date_getTime Q syncDate) as [ms |].
  all: rewrite Hbegin; run_more.
  all: eexists; cbn [In]; pick.
Qed.

End SyncDateFacts.

Section CallbackFacts.

Context {W Conn : Type} (C : Collaborators W Conn).

(** X7: [runSQL] and its callback. Once the statement is with the driver,
    the queue holds the callback together with the change counter read
    before the transaction began. Run on a driver error, the callback
    only rolls back and its promise rejects. Run without error, when its
    promise resolves, the transaction was committed, [changes] is the
    counter after the commit minus the counter read before, and [lastId]
    is what [getLastId] gave. *)
Theorem runSQL_callback_settles_transaction (s : Sys W Conn) (stmt : string)
  (vals : list Value) (err : option Error) :
  In (EvDriverRun stmt vals err) (events (runSQL C stmt vals s)) ->
  exists before,
    events (runSQL C stmt vals s) =
      [EvDbChanges (Resolve before);
       EvBeginTransaction true (Resolve tt);
       EvDriverRun stmt vals err] /\
    pending (after (runSQL C stmt vals s)) = pending s ++ [CbRun err before] /\
    forall s1 : Sys W Conn,
      _isDBOpen (this s1) = true ->
      match err with
      | Some e =>
          exists r e',
            events (run_callback C err before s1) =
              [EvRollbackTransaction true r] /\
            result (run_callback C err before s1) = Reject e'
      | None =>
          forall rr,
            result (run_callback C err before s1) = Resolve (Some rr) ->
            exists after_,
              events (run_callback C err before s1) =
                [EvCommitTransaction true (Resolve tt);
                 EvDbChanges (Resolve after_);
                 EvGetLastId (Resolve (lastId rr))] /\
              changes rr = after_ - before
      end.
Proof.
  start_run s. run_paths.
  all: intros Hin; in_cases Hin; clean_eqs.
  all: repeat match goal with a : unit |- _ => destruct a end.
  all: eexists; split; [reflexivity |]; split; [reflexivity |].
  all: intros [[? ? ? ? ? ? ? ?] ? ?]; simpl; intros ->.
  all: run_paths.
  all: repeat match goal with a : unit |- _ => destruct a end.
  all: try (do 2 eexists; split; reflexivity).
  all: intros rr Hrr; clean_eqs; try discriminate Hrr.
  all: eexists; split; reflexivity.
Qed.

(** X8: [close] and its callback. On an open controller with a
    connection, [close] asks the driver once and queues the callback.
    Once the callback has run, the flag is lowered when the driver
    reported no error, and is still raised when it reported one; the
    connection stays stored in both cases. After a successful close, a
    further [close] does nothing. *)
Theorem close_then_callback (s : Sys W Conn) (conn : Conn) :
  _isDBOpen (this s) = true ->
  _mDB (this s) = Some conn ->
  pending s = [] ->
  let s1 := fst (drain C (after (close C s))) in
  events (close C s) =
    [EvClose; EvDriverClose (snd (driver_close C conn (world s)))] /\
  _mDB (this s1) = Some conn /\
  pending s1 = [] /\
  match snd (driver_close C conn (world s)) with
  | None =>
      isDBOpen s1 = false /\
      after (close C s1) = s1 /\ events (close C s1) = [EvClose]
  | Some _ => isDBOpen s1 = true
  end.
Proof.
  start_run s. simpl. intros -> -> ->.
  cbv beta iota zeta delta [drain call_back fold_left fst snd].
  exec. destruct (driver_close C conn w0) as [w [e |]] eqn:Hdrv.
  all: cbv beta iota zeta delta [drain call_back fold_left fst snd app]; exec.
  all: cbv beta iota zeta delta [drain call_back fold_left fst snd app]; exec.
  all: repeat split; reflexivity.
Qed.

End CallbackFacts.

Section DeleteFacts.

Context {W Conn Row : Type} (C : Collaborators W Conn)
        (Q : Db.Queries W Conn Row).

(** X9: [deleteDB] on a name whose file does not exist is a plain
    [close]: the database is not opened, no file is deleted, and the
    promise resolves. *)
Theorem deleteDB_missing_file (s : Sys W Conn) (name : string) :
  Db.isFileExists Q name (world s) = false ->
  result (Db.deleteDB C Q name s) = Resolve tt /\
  events (Db.deleteDB C Q name s) = events (close C s) /\
  after (Db.deleteDB C Q name s) = after (close C s).
Proof.
  start_run s. cbn [world]. intros Hex. exec_more. rewrite Hex. cbn [andb].
  run_more. all: repeat split; reflexivity.
Qed.

(** X10: [deleteDB] on a name whose file exists. A closed controller is
    opened first, and when that fails nothing else is done: the promise
    rejects with [DeleteDB: ] before the message of [open]. Otherwise
    [close] is called, then the file of that name is deleted, and the
    promise follows the deletion: resolved, or rejected with
    [DeleteDB: deleteFile <name> failed <message>]. No rejection comes
    from [close]. *)
Theorem deleteDB_existing_file (s : Sys W Conn) (name : string) :
  Db.isFileExists Q name (world s) = true ->
  let opened :=
    if _isDBOpen (this s) then mkRun s [] (Resolve tt) else open C s in
  match result opened with
  | Reject e0 =>
      Db.deleteDB C Q name s =
        mkRun (after opened) (events opened)
              (Reject (mkError ("DeleteDB: " +:+ message e0)))
  | Resolve _ =>
      exists w r,
        deleteFileName C name (world (after (close C (after opened)))) = (w, r) /\
        events (Db.deleteDB C Q name s) =
          events opened ++ events (close C (after opened))
          ++ [EvDeleteFileName name r] /\
        result (Db.deleteDB C Q name s) =
          match r with
          | Resolve _ => Resolve tt
          | Reject e =>
              Reject (mkError ("DeleteDB: deleteFile " +:+ name +:+ " failed "
                               +:+ message e))
          end
  end.
Proof.
  start_run s. cbn [world this _isDBOpen]. intros Hex.
  exec_more. rewrite Hex. cbn [andb]. destruct isOpen0; cbn [negb].
  all: run_more.
  all: repeat match goal with a : unit |- _ => destruct a end.
  all: try reflexivity.
  all: do 2 eexists; split; [reflexivity |]; split; [reflexivity |].
  all: rewrite ?string_app_assoc; reflexivity.
Qed.

End DeleteFacts.

Section OpenMoreFacts.

Context {W Conn : Type} (C : Collaborators W Conn).

(** X11: the password [open] uses. The connection is asked for the stored
    path, with the new secret in mode [newsecret], with the secret when
    the controller is encrypted and the mode is [secret] or [encryption],
    and with the empty password otherwise. In mode [newsecret] the
    password was changed from the secret to the new secret before; in
    mode [encryption] the file was encrypted before, with that same
    password. *)
Theorem open_uses_password (s : Sys W Conn) (path pw : string)
  (r : Promise Conn) :
  In (EvOpenOrCreateDatabase path pw r) (events (open C s)) ->
  path = _pathDB (this s) /\
  pw = (if String.eqb (_mode (this s)) "newsecret" then newsecret C
        else if _encrypted (this s) &&
                (String.eqb (_mode (this s)) "secret" ||
                 String.eqb (_mode (this s)) "encryption")
             then secret C else "") /\
  (String.eqb (_mode (this s)) "newsecret" = true ->
     In (EvChangePassword path (secret C) (newsecret C) (Resolve tt))
        (events (open C s))) /\
  (String.eqb (_mode (this s)) "encryption" = true ->
     In (EvEncryptDatabase path pw (Resolve tt)) (events (open C s))).
Proof.
  start_run s. run_paths.
  all: repeat match goal with a : unit |- _ => destruct a end.
  all: intros Hin; in_cases Hin; clean_eqs.
  all: repeat split; try reflexivity; intros Hm; try discriminate Hm.
  all: simpl; pick.
Qed.

(** X12: what [open] leaves behind. It never touches the configuration.
    When it resolves, the flag is raised. Whenever the flag is raised
    afterwards, the stored connection is the one that
    [openOrCreateDatabase] gave in this call and the stored version has
    been read from it. Every rejection carries a message that starts
    with [Open: ]. *)
Theorem open_postconditions (s : Sys W Conn) :
  (_dbName (this (after (open C s))) = _dbName (this s) /\
   _encrypted (this (after (open C s))) = _encrypted (this s) /\
   _mode (this (after (open C s))) = _mode (this s) /\
   _version (this (after (open C s))) = _version (this s) /\
   _pathDB (this (after (open C s))) = _pathDB (this s) /\
   _vUpgDict (this (after (open C s))) = _vUpgDict (this s)) /\
  (result (open C s) = Resolve tt -> isDBOpen (after (open C s)) = true) /\
  (isDBOpen (after (open C s)) = true ->
     exists conn pw v,
       _mDB (this (after (open C s))) = Some conn /\
       In (EvOpenOrCreateDatabase (_pathDB (this s)) pw (Resolve conn))
          (events (open C s)) /\
       In (EvGetVersion (Some conn) (Resolve v)) (events (open C s))) /\
  (forall e, result (open C s) = Reject e ->
     exists cause, message e = "Open: " +:+ message cause).
Proof.
  start_run s. run_paths.
  all: repeat match goal with a : unit |- _ => destruct a end.
  all: split; [repeat split; reflexivity |].
  all: split; [intros Hr; first [reflexivity | discriminate Hr] |].
  all: split.
  all: try (intros Hr; discriminate Hr).
  all: try (intros _; do 3 eexists; split; [reflexivity |];
            split; simpl; pick).
  all: intros ? He; clean_eqs; try discriminate He.
  all: eexists; reflexivity.
Qed.

End OpenMoreFacts.

Section FrameFacts.

Context {W Conn Row : Type} (C : Collaborators W Conn)
        (Q : Db.Queries W Conn Row).

(** X13: apart from [open] and the callback of [close], nothing writes
    to the controller: after any of the other methods, and after the
    callback of [runSQL], the flag, the connection and the configuration
    are what they were, whether the method succeeded or failed. Only
    [close] and [runSQL] queue a callback. *)
Theorem methods_keep_controller (s : Sys W Conn) (sql tableName md d : string)
  (vals : list Value) (svals : list string) (set : list SetItem)
  (json : JsonSQLite) (err : option Error) (n : Z) :
  (this (after (executeSQL C sql s)) = this s /\
   pending (after (executeSQL C sql s)) = pending s) /\
  (this (after (execSet C set s)) = this s /\
   pending (after (execSet C set s)) = pending s) /\
  (this (after (createSyncTable C s)) = this s /\
   pending (after (createSyncTable C s)) = pending s) /\
  (this (after (importJson C json s)) = this s /\
   pending (after (importJson C json s)) = pending s) /\
  (this (after (exportJson C md s)) = this s /\
   pending (after (exportJson C md s)) = pending s) /\
  (this (after (Db.isTableExists C tableName s)) = this s /\
   pending (after (Db.isTableExists C tableName s)) = pending s) /\
  (this (after (Db.selectSQL Q sql svals s)) = this s /\
   pending (after (Db.selectSQL Q sql svals s)) = pending s) /\
  (this (after (Db.setSyncDate C Q d s)) = this s /\
   pending (after (Db.setSyncDate C Q d s)) = pending s) /\
  (this (after (Db.getSyncDate Q s)) = this s /\
   pending (after (Db.getSyncDate Q s)) = pending s) /\
  this (after (runSQL C sql vals s)) = this s /\
  this (after (close C s)) = this s /\
  (this (after (run_callback C err n s)) = this s /\
   pending (after (run_callback C err n s)) = pending s).
Proof.
  start_run s.
  repeat match goal with
         | |- _ /\ _ => split
         end.
  all: run_more; reflexivity.
Qed.

End FrameFacts.

Section JsonFacts.

Context {W Conn : Type} (C : Collaborators W Conn).

(** X14: the outcomes of [importJson]. The resolved value is the count
    given by the row phase; the count of the schema phase is dropped,
    unless it is the sentinel -1, which is passed on alone. A rejection
    is the closed-controller one, or wraps the failure of the phase that
    was running as [ImportJson: ...]. *)
Theorem importJson_outcomes (s : Sys W Conn) (json : JsonSQLite) :
  match result (importJson C json s) with
  | Resolve v =>
      (v = -1 /\
       events (importJson C json s) =
         [EvCreateDatabaseSchema json (Resolve (-1))]) \/
      (exists n, n <> -1 /\
         events (importJson C json s) =
           [EvCreateDatabaseSchema json (Resolve n);
            EvCreateTablesData json (Resolve v)])
  | Reject e =>
      (_isDBOpen (this s) = false /\ events (importJson C json s) = []) \/
      (exists cause,
         (events (importJson C json s) =
            [EvCreateDatabaseSchema json (Reject cause)] \/
          exists n, n <> -1 /\
            events (importJson C json s) =
              [EvCreateDatabaseSchema json (Resolve n);
               EvCreateTablesData json (Reject cause)]) /\
         e = mkError ("ImportJson: " +:+ message cause))
  end.
Proof.
  start_run s. run_paths.
  all: try subst.
  all: try (left; split; reflexivity).
  all: try (right; eexists; split; [eassumption | reflexivity]).
  all: right; eexists; split; [| reflexivity].
  all: first [left; reflexivity
             | right; eexists; split; [eassumption | reflexivity]].
Qed.

(** X15: the outcomes of [exportJson]. It resolves only with the document
    that [createExportObject] produced from the header and that
    [isJsonSQLite] accepted. A document that fails the check is never
    returned: the promise rejects with [ExportJson: retJson not valid]. *)
Theorem exportJson_outcomes (s : Sys W Conn) (md : string) :
  match result (exportJson C md s) with
  | Resolve j =>
      isJsonSQLite C j = true /\
      events (exportJson C md s) =
        [EvCreateExportObject (export_header (this s) md) (Resolve j)]
  | Reject e =>
      (_isDBOpen (this s) = false /\ events (exportJson C md s) = [] /\
       e = mkError "ExportJson: database is closed") \/
      (exists cause,
         events (exportJson C md s) =
           [EvCreateExportObject (export_header (this s) md) (Reject cause)] /\
         e = mkError ("ExportJson: " +:+ message cause)) \/
      (exists j,
         events (exportJson C md s) =
           [EvCreateExportObject (export_header (this s) md) (Resolve j)] /\
         isJsonSQLite C j = false /\
         e = mkError "ExportJson: retJson not valid")
  end.
Proof.
  start_run s. unfold export_header. run_paths.
  all: try (split; [assumption | reflexivity]).
  all: try (left; repeat split; reflexivity).
  all: try (right; left; eexists; split; reflexivity).
  all: right; right; eexists; split; [reflexivity |]; split;
       [assumption | reflexivity].
Qed.

(** X16: what [createSyncTable] resolves with. Either the table was
    there and the value is -1, nothing having been executed; or the table
    was missing, the value is the non-negative change count of one
    committed transaction, and the statement executed holds the clock
    reading rounded to the nearest second (half a second rounds up). *)
Theorem createSyncTable_resolved_value (s : Sys W Conn) (v : Z) :
  result (createSyncTable C s) = Resolve v ->
  (v = -1 /\
   events (createSyncTable C s) =
     [EvIsTableExists true "sync_table" (Resolve true)]) \/
  (0 <= v /\
   exists w,
     isTableExists C (_mDB (this s)) true "sync_table" (world s) =
       (w, Resolve false) /\
     -500 <= now_ms C w - 1000 * round_seconds (now_ms C w) < 500 /\
     events (createSyncTable C s) =
       [EvIsTableExists true "sync_table" (Resolve false);
        EvBeginTransaction true (Resolve tt);
        EvExecute (sync_table_stmts (round_seconds (now_ms C w))) (Resolve v);
        EvCommitTransaction true (Resolve tt)]).
Proof.
  start_run s. run_paths.
  all: repeat match goal with a : unit |- _ => destruct a end.
  all: intros Hr; clean_eqs; try discriminate Hr.
  all: try (left; split; reflexivity).
  all: try lia.
  all: right; split; [lia |]; eexists; split; [reflexivity |]; split;
       [| reflexivity].
  all: unfold round_seconds;
       match goal with
       | |- context [(?m + 500) / 1000] =>
           pose proof (Z.div_mod (m + 500) 1000 ltac:(lia));
           pose proof (Z.mod_pos_bound (m + 500) 1000 ltac:(lia)); lia
       end.
Qed.

End JsonFacts.

(** ** The database name in the export header *)

Lemma string_length_app (a b : string) :
  String.length (a +:+ b) = (String.length a + String.length b)%nat.
Proof.
  induction a as [| x a IH]; [reflexivity |].
  change (S (String.length (a +:+ b)) = S (String.length a + String.length b)).
  now rewrite IH.
Qed.

Lemma substring_app_prefix (a b : string) :
  String.substring 0 (String.length a) (a +:+ b) = a.
Proof.
  induction a as [| x a IH].
  - destruct b; reflexivity.
  - change (String x (String.substring 0 (String.length a) (a +:+ b))
            = String x a).
    now rewrite IH.
Qed.

(** X17: when the configured name is a base name followed by nine
    characters (the [SQLite.db] ending), the export header names the
    database by the base name. *)
Theorem export_header_strips_suffix {Conn : Type} (d : Database Conn)
  (md base suffix : string) :
  _dbName d = base +:+ suffix ->
  String.length suffix = 9%nat ->
  database (export_header d md) = base.
Proof.
  intros Hname Hlen. cbn [export_header database].
  rewrite slice_drop_last_9, Hname, string_length_app, Hlen.
  replace (String.length base + 9 - 9)%nat with (String.length base) by lia.
  apply substring_app_prefix.
Qed.

(** ** The further properties on explicit inputs *)

(** X1 at a closed controller. *)
Lemma closed_sql_methods_reject_witness :
  _isDBOpen (this sys_up_to_date) = false /\
  executeSQL collaborators "DELETE FROM users;" sys_up_to_date =
    mkRun sys_up_to_date []
      (Reject (mkError "ExecuteSQL: Database testSQLite.db not opened")).
Proof.
  split; [reflexivity |].
  exact (proj1 (closed_sql_methods_reject collaborators SimMore.queries
                  sys_up_to_date "DELETE FROM users;" [] [] set_users
                  eq_refl)).
Defined.

(** X2 at a closed controller. *)
Lemma closed_table_and_json_methods_reject_witness :
  _isDBOpen (this sys_up_to_date) = false /\
  Db.isTableExists collaborators "users" sys_up_to_date =
    mkRun sys_up_to_date []
      (Reject (mkError "isTableExists: Database testSQLite.db not opened")).
Proof.
  split; [reflexivity |].
  exact (proj1 (closed_table_and_json_methods_reject collaborators
                  sys_up_to_date "users" "full" json_users eq_refl)).
Defined.

(** X6 at an open controller and a text that is not a date. *)
Lemma setSyncDate_sends_statement_witness :
  (_isDBOpen (this sys_open) = true /\
   beginTransaction collaborators (_mDB (this sys_open)) true (world sys_open)
     = (world sys_open, Resolve tt)) /\
  exists r,
    In (EvExecute "UPDATE sync_table SET sync_date = NaN WHERE id = 1;" r)
       (events (Db.setSyncDate collaborators SimMore.queries "yesterday"
                  sys_open)).
Proof.
  split; [split; reflexivity |].
  exact (setSyncDate_sends_statement collaborators SimMore.queries sys_open
           "yesterday" (world sys_open) eq_refl eq_refl).
Defined.

(** X7 at an open controller and a driver that runs the statement. *)
Lemma runSQL_callback_settles_transaction_witness :
  In (EvDriverRun "INSERT INTO users (id) VALUES (?);" [VNum 2] None)
     (events (runSQL collaborators "INSERT INTO users (id) VALUES (?);"
                [VNum 2] sys_open)) /\
  exists before,
    events (runSQL collaborators "INSERT INTO users (id) VALUES (?);"
              [VNum 2] sys_open) =
      [EvDbChanges (Resolve before);
       EvBeginTransaction true (Resolve tt);
       EvDriverRun "INSERT INTO users (id) VALUES (?);" [VNum 2] None].
Proof.
  assert (Hin : In (EvDriverRun "INSERT INTO users (id) VALUES (?);"
                      [VNum 2] None)
                   (events (runSQL collaborators
                              "INSERT INTO users (id) VALUES (?);"
                              [VNum 2] sys_open)))
    by (vm_compute; tauto).
  split; [exact Hin |].
  destruct (runSQL_callback_settles_transaction collaborators sys_open
              _ _ _ Hin) as (before & Hev & _).
  exists before. exact Hev.
Defined.

(** X8 at an open controller whose driver closes without error. *)
Lemma close_then_callback_witness :
  (_isDBOpen (this sys_open) = true /\
   _mDB (this sys_open) = Some "Databases/testSQLite.db" /\
   pending sys_open = []) /\
  events (close collaborators sys_open) = [EvClose; EvDriverClose None].
Proof.
  split; [repeat split; reflexivity |].
  exact (proj1 (close_then_callback collaborators sys_open
                  "Databases/testSQLite.db" eq_refl eq_refl eq_refl)).
Defined.

(** X9 at a name without file. *)
Lemma deleteDB_missing_file_witness :
  Db.isFileExists SimMore.queries "other.db" (world sys_open) = false /\
  result (Db.deleteDB collaborators SimMore.queries "other.db" sys_open)
    = Resolve tt.
Proof.
  split; [reflexivity |].
  exact (proj1 (deleteDB_missing_file collaborators SimMore.queries sys_open
                  "other.db" eq_refl)).
Defined.

(** X10 at an open controller and the name of its file. *)
Lemma deleteDB_existing_file_witness :
  Db.isFileExists SimMore.queries "testSQLite.db" (world sys_open) = true /\
  exists w r,
    deleteFileName collaborators "testSQLite.db"
      (world (after (close collaborators sys_open))) = (w, r) /\
    events (Db.deleteDB collaborators SimMore.queries "testSQLite.db" sys_open) =
      [] ++ events (close collaborators sys_open)
      ++ [EvDeleteFileName "testSQLite.db" r] /\
    result (Db.deleteDB collaborators SimMore.queries "testSQLite.db" sys_open) =
      match r with
      | Resolve _ => Resolve tt
      | Reject e =>
          Reject (mkError ("DeleteDB: deleteFile " +:+ "testSQLite.db"
                           +:+ " failed " +:+ message e))
      end.
Proof.
  split; [reflexivity |].
  exact (deleteDB_existing_file collaborators SimMore.queries sys_open
           "testSQLite.db" eq_refl).
Defined.

(** X11 at a controller in mode [no-encryption]. *)
Lemma open_uses_password_witness :
  In (EvOpenOrCreateDatabase "Databases/testSQLite.db" ""
        (Resolve "Databases/testSQLite.db"))
     (events (open collaborators sys_up_to_date)) /\
  "Databases/testSQLite.db" = _pathDB (this sys_up_to_date).
Proof.
  assert (Hin : In (EvOpenOrCreateDatabase "Databases/testSQLite.db" ""
                      (Resolve "Databases/testSQLite.db"))
                   (events (open collaborators sys_up_to_date)))
    by (vm_compute; tauto).
  split; [exact Hin |].
  exact (proj1 (open_uses_password collaborators sys_up_to_date _ _ _ Hin)).
Defined.

(** X17 at the name [testSQLite.db]. *)
Lemma export_header_strips_suffix_witness :
  (_dbName (opened_db 1) = "test" +:+ "SQLite.db" /\
   String.length "SQLite.db" = 9%nat) /\
  database (export_header (opened_db 1) "full") = "test".
Proof.
  split; [split; reflexivity |].
  exact (export_header_strips_suffix (opened_db 1) "full" "test" "SQLite.db"
           eq_refl eq_refl).
Defined.

(** X16 at an open controller without synchronisation table. *)
Lemma createSyncTable_resolved_value_witness :
  result (createSyncTable collaborators sys_open) = Resolve 1 /\
  ((1 = -1 /\
    events (createSyncTable collaborators sys_open) =
      [EvIsTableExists true "sync_table" (Resolve true)]) \/
   (0 <= 1 /\
    exists w,
      isTableExists collaborators (_mDB (this sys_open)) true "sync_table"
        (world sys_open) = (w, Resolve false) /\
      -500 <= now_ms collaborators w
              - 1000 * round_seconds (now_ms collaborators w) < 500 /\
      events (createSyncTable collaborators sys_open) =
        [EvIsTableExists true "sync_table" (Resolve false);
         EvBeginTransaction true (Resolve tt);
         EvExecute (sync_table_stmts (round_seconds (now_ms collaborators w)))
                   (Resolve 1);
         EvCommitTransaction true (Resolve tt)])).
Proof.
  assert (Hr : result (createSyncTable collaborators sys_open) = Resolve 1)
    by (vm_compute; reflexivity).
  split; [exact Hr |].
  exact (createSyncTable_resolved_value collaborators sys_open 1 Hr).
Defined.
